(** * Document-request lifecycle: the request controller over the Request model

    A shallow embedding of [src/models/Request.js] (the Mongoose schema, its
    validators and its [pre('save')] hook), of
    [src/controllers/requestController.js] (the eight handlers) and of the
    route table that chains the handlers behind the authorisation
    middleware.

    Conventions of the embedding:
    - a JavaScript value that is either [undefined] or a string is an
      [option string]; [None] is [undefined];
    - an ObjectId is the string that [toString()] renders, 24 hexadecimal
      digits in lower case; the id in the path of a request is any string,
      and ids are compared as they are written: an id written with digits
      in upper case is an ObjectId to the cast, but is no key of the
      collection;
    - a [Date] is the number of milliseconds since the epoch, a [Z]; the
      clock is read once per handler call and passed in as [now];
    - the [requests] collection is a finite map from [_id] to the other
      paths of the document, so that [_id] is no field of [Request.t] and a
      document in a response is sent as the pair of the two;
    - a handler is a function from the collection to the new collection and
      the response it sends, either [res.status(c).json(..)] or
      [next(error)]. *)

From Stdlib Require Import ZArith Ascii.
From stdpp Require Import gmap strings list sorting.

Local Open Scope string_scope.
Local Open Scope list_scope.
Local Open Scope Z_scope.

Abbreviation ObjectId := string (only parsing).
Abbreviation Date := Z (only parsing).

(** ** JavaScript strings *)

Module Js.

(** [if (v)] / [!v] / [v || d] on a value that is [undefined] or a string:
    [undefined] and the empty string are falsy. *)
Definition truthy (v : option string) : bool :=
  match v with
  | Some s => negb (String.eqb s "")
  | None => false
  end.

(** [v || d] *)
Definition or_else (v : option string) (d : string) : string :=
  match v with
  | Some s => if String.eqb s "" then d else s
  | None => d
  end.

(** [${v}] inside a template literal. *)
Definition interpolate (v : option string) : string :=
  match v with
  | Some s => s
  | None => "undefined"
  end.

End Js.

(** ** models/Request.js *)

Module TimelineEvent.
Record t := mk {
  status : option string;
  message : option string;
  performedBy : option ObjectId;
  performedByName : option string;
  timestamp : Date
}.
End TimelineEvent.

Module AdminRemark.
Record t := mk {
  admin : ObjectId;
  adminName : string;
  remark : option string;
  timestamp : Date
}.
End AdminRemark.

Module CorrectionDetails.
Record t := mk {
  currentValue : option string;
  requestedValue : option string;
  reason : option string
}.
End CorrectionDetails.

Module UploadedDocument.
Record t := mk {
  fileName : option string;
  fileUrl : option string;
  fileType : option string;
  uploadedAt : Date
}.
End UploadedDocument.

Module Request.

Record t := mk {
  userId : ObjectId;
  requestType : option string;
  title : option string;
  description : option string;
  correctionDetails : option CorrectionDetails.t;
  uploadedDocuments : list UploadedDocument.t;
  status : option string;
  adminRemarks : list AdminRemark.t;
  timeline : list TimelineEvent.t;
  priority : option string;
  rejectionReason : option string;
  createdAt : Date;
  updatedAt : Date;
  expectedCompletionDate : option Date;
  completedAt : option Date
}.

(** The [enum] arrays of the schema. *)
Definition requestType_enum : list string :=
  [ "degree_certificate"; "provisional_certificate"; "migration_certificate";
    "transcript"; "marksheet"; "name_correction"; "dob_correction";
    "retotaling"; "rechecking"; "other" ].

Definition status_enum : list string :=
  [ "submitted"; "under_review"; "correction_required"; "approved";
    "rejected"; "in_processing"; "ready"; "completed" ].

Definition priority_enum : list string := [ "low"; "medium"; "high"; "urgent" ].

(** Assignments to single paths of a document. *)
Definition set_status (v : option string) (r : t) : t :=
  mk (userId r) (requestType r) (title r) (description r)
     (correctionDetails r) (uploadedDocuments r) v (adminRemarks r)
     (timeline r) (priority r) (rejectionReason r) (createdAt r)
     (updatedAt r) (expectedCompletionDate r) (completedAt r).

Definition set_rejectionReason (v : option string) (r : t) : t :=
  mk (userId r) (requestType r) (title r) (description r)
     (correctionDetails r) (uploadedDocuments r) (status r) (adminRemarks r)
     (timeline r) (priority r) v (createdAt r)
     (updatedAt r) (expectedCompletionDate r) (completedAt r).

Definition set_completedAt (v : option Date) (r : t) : t :=
  mk (userId r) (requestType r) (title r) (description r)
     (correctionDetails r) (uploadedDocuments r) (status r) (adminRemarks r)
     (timeline r) (priority r) (rejectionReason r) (createdAt r)
     (updatedAt r) (expectedCompletionDate r) v.

Definition set_updatedAt (v : Date) (r : t) : t :=
  mk (userId r) (requestType r) (title r) (description r)
     (correctionDetails r) (uploadedDocuments r) (status r) (adminRemarks r)
     (timeline r) (priority r) (rejectionReason r) (createdAt r)
     v (expectedCompletionDate r) (completedAt r).

(** [request.timeline.push(e)] *)
Definition push_timeline (e : TimelineEvent.t) (r : t) : t :=
  mk (userId r) (requestType r) (title r) (description r)
     (correctionDetails r) (uploadedDocuments r) (status r) (adminRemarks r)
     (timeline r ++ [e]) (priority r) (rejectionReason r) (createdAt r)
     (updatedAt r) (expectedCompletionDate r) (completedAt r).

(** [request.adminRemarks.push(a)] *)
Definition push_adminRemarks (a : AdminRemark.t) (r : t) : t :=
  mk (userId r) (requestType r) (title r) (description r)
     (correctionDetails r) (uploadedDocuments r) (status r)
     (adminRemarks r ++ [a])
     (timeline r) (priority r) (rejectionReason r) (createdAt r)
     (updatedAt r) (expectedCompletionDate r) (completedAt r).

(** *** Schema validators

    [required] on a String path rejects [undefined] and the empty string;
    [enum] is only consulted on a value that is present. *)
Definition required (v : option string) : bool := Js.truthy v.

Definition enum (values : list string) (v : option string) : bool :=
  match v with
  | Some s => bool_decide (s ∈ values)
  | None => true
  end.

(** One element of [timeline] against [timelineEventSchema]. *)
Definition validate_event (e : TimelineEvent.t) : bool :=
  required (TimelineEvent.status e) && required (TimelineEvent.message e).

Definition check (path : string) (ok : bool) : list string :=
  if ok then [] else [path].

(** The paths of a document that fail validation, in schema order. *)
Definition validate (r : t) : list string :=
  check "requestType" (required (requestType r) && enum requestType_enum (requestType r))
  ++ check "title" (required (title r))
  ++ check "description" (required (description r))
  ++ check "status" (enum status_enum (status r))
  ++ check "timeline" (forallb validate_event (timeline r))
  ++ check "priority" (enum priority_enum (priority r)).

(** [requestSchema.pre('save', ...)]: a new document gets the initial
    timeline event; every save refreshes [updatedAt]. *)
Definition pre_save (isNew : bool) (now : Date) (r : t) : t :=
  let r :=
    if isNew then
      push_timeline
        (TimelineEvent.mk (Some "submitted")
           (Some "Request submitted successfully") None None now) r
    else r in
  set_updatedAt now r.

End Request.

(** ** Mongoose errors and the [requests] collection *)

Module Mongoose.
Inductive Error :=
  | ValidationError (paths : list string)  (* rejected by the schema *)
  | DuplicateKeyError                      (* unique index on [_id] *)
  | CastError (value : string)             (* no ObjectId *)
  | RegexError (pattern : string).         (* [$regex] does not compile *)
End Mongoose.

(** ** The cast of a string to an ObjectId

    The driver takes a string for an ObjectId when it is made of 24
    hexadecimal digits, in either case. *)

Module ObjectIds.

Definition digit (c : ascii) : bool :=
  let n := nat_of_ascii c in ((48 <=? n) && (n <=? 57))%nat.
Definition lower_hex (c : ascii) : bool :=
  let n := nat_of_ascii c in ((97 <=? n) && (n <=? 102))%nat.
Definition upper_hex (c : ascii) : bool :=
  let n := nat_of_ascii c in ((65 <=? n) && (n <=? 70))%nat.

(** [ObjectId.isValid(id)] on a string. *)
Definition isValid (id : string) : bool :=
  (String.length id =? 24)%nat
  && forallb (fun c => digit c || lower_hex c || upper_hex c)
       (String.list_ascii_of_string id).

(** The strings that [toString()] yields. *)
Definition rendered (id : string) : bool :=
  (String.length id =? 24)%nat
  && forallb (fun c => digit c || lower_hex c)
       (String.list_ascii_of_string id).

End ObjectIds.

Module Collection.

Abbreviation t := (gmap ObjectId Request.t) (only parsing).

(** [Request.findById(id)]: the id is cast to an ObjectId and the document
    with that [_id] is sought. The keys of the collection are ObjectIds as
    [toString()] renders them, and the cast takes such a string to itself:
    an id that is a key is found as it stands. An id that is no key is
    either one the cast accepts, and then the promise resolves to [null],
    or one it does not accept, and then the promise rejects with a
    [CastError]. The properties below that speak of an id no request has
    take it as [toString()] renders it, or as one the cast rejects. *)
Definition findById (id : string) (db : t)
  : Mongoose.Error + option Request.t :=
  match db !! id with
  | Some r => inr (Some r)
  | None =>
      if ObjectIds.isValid id then inr None else inl (Mongoose.CastError id)
  end.

(** [doc.save()]: validation runs first, then the [pre('save')] hook, then
    the write. [isNew] is set on a document that was never stored. *)
Definition save (isNew : bool) (now : Date) (id : ObjectId) (r : Request.t)
  (db : t) : Mongoose.Error + (Request.t * t) :=
  match Request.validate r with
  | [] =>
      let r' := Request.pre_save isNew now r in
      if isNew && bool_decide (is_Some (db !! id)) then
        inl Mongoose.DuplicateKeyError
      else inr (r', <[id := r']> db)
  | paths => inl (Mongoose.ValidationError paths)
  end.

(** The documents of the collection, in natural order. *)
Definition docs (db : t) : list (ObjectId * Request.t) := map_to_list db.

(** [.sort({ createdAt: -1 })] *)
Definition newer_first (a b : ObjectId * Request.t) : Prop :=
  Request.createdAt b.2 ≤ Request.createdAt a.2.

#[global] Instance newer_first_dec : RelDecision newer_first.
Proof. intros a b. unfold newer_first. apply _. Defined.

Definition sort_createdAt_desc (l : list (ObjectId * Request.t))
  : list (ObjectId * Request.t) :=
  merge_sort newer_first l.

(** [Request.countDocuments()] *)
Definition countDocuments (db : t) : nat := length (docs db).

(** [{ $group: { _id: '$status', count: { $sum: 1 } } }]: one group per
    distinct status, in order of first appearance. *)
Fixpoint bump (k : option string) (groups : list (option string * nat))
  : list (option string * nat) :=
  match groups with
  | [] => [(k, 1%nat)]
  | (k', n) :: rest =>
      if decide (k = k') then (k', S n) :: rest else (k', n) :: bump k rest
  end.

Definition group_by_status (l : list (ObjectId * Request.t))
  : list (option string * nat) :=
  foldl (fun groups d => bump (Request.status d.2) groups) [] l.

End Collection.

(** ** The request and response objects of a handler *)

Module User.
(** Modelled from the spec: models/User.js and the [protect] middleware
    that loads [req.user] are not in the sources at hand; the principal is
    the spec's [{id, role, firstName, lastName}]. *)
Record t := mk {
  id : ObjectId;
  role : string;
  firstName : string;
  lastName : string
}.

(** [`${req.user.firstName} ${req.user.lastName}`] *)
Definition fullName (u : t) : string := firstName u +:+ " " +:+ lastName u.
End User.

Module FileRef.
Record t := mk {
  fileName : option string;
  fileUrl : option string;
  fileType : option string
}.
End FileRef.

Module Body.
Record t := mk {
  requestType : option string;
  title : option string;
  description : option string;
  correctionDetails : option CorrectionDetails.t;
  uploadedDocuments : list FileRef.t;
  priority : option string;
  status : option string;
  message : option string;
  remark : option string;
  reason : option string
}.
End Body.

Module Query.
Record t := mk {
  status : option string;
  requestType : option string;
  priority : option string;
  search : option string
}.
End Query.

Module Req.
Record t := mk {
  params_id : ObjectId;
  user : User.t;
  body : Body.t;
  query : Query.t
}.
End Req.

Module Stats.
Record t := mk {
  total : nat;
  byStatus : gmap string nat
}.
End Stats.

Inductive Payload :=
  | no_payload
  | one_request (id : ObjectId) (request : Request.t)
  | many_requests (count : nat) (requests : list (ObjectId * Request.t))
  | the_stats (stats : Stats.t).

Inductive Response :=
  | json (code : Z) (success : bool) (message : option string) (payload : Payload)
  | next (error : Mongoose.Error).

(** ** The [$regex] query operator

    [{ $regex: p, $options: o }] is evaluated by the database server: it
    compiles the pattern [p] under the options [o] and searches the text
    for a match. The server's engine is not part of the sources; it enters
    the handlers as [engine], which answers [None] for a pattern that does
    not compile and otherwise the test of a text against the pattern. *)

Module Regex.

Definition engine : Type := string → string → option (string → bool).

(** A path that is absent from the document matches no pattern. *)
Definition test (matcher : string → bool) (field : option string) : bool :=
  match field with
  | Some text => matcher text
  | None => false
  end.

(** *** A small engine for the examples

    It knows, under the option [i], the patterns made of literal ASCII
    characters and the wildcard [.], and gives no matcher for any other. A
    literal matches itself, a letter without regard to case; the wildcard
    matches one character of the text, which is read as UTF-8, but not a
    newline. *)

Inductive atom :=
  | Lit (c : ascii)
  | AnyChar.

Definition metacharacters : list ascii :=
  String.list_ascii_of_string "\^$.|?*+()[]{}".

Fixpoint parse (p : string) : option (list atom) :=
  match p with
  | EmptyString => Some []
  | String c p' =>
      if Ascii.eqb c "."%char then cons AnyChar <$> parse p'
      else if bool_decide (c ∈ metacharacters) then None
      else if (128 <=? nat_of_ascii c)%nat then None
      else cons (Lit c) <$> parse p'
  end.

Definition lower (c : ascii) : ascii :=
  let n := nat_of_ascii c in
  if ((65 <=? n) && (n <=? 90))%nat then ascii_of_nat (n + 32) else c.

(** The bytes 10xxxxxx, which continue a character of several bytes. *)
Definition continuation (c : ascii) : bool :=
  let n := nat_of_ascii c in ((128 <=? n) && (n <=? 191))%nat.

Fixpoint skip_continuation (text : string) : string :=
  match text with
  | String c text' =>
      if continuation c then skip_continuation text' else text
  | EmptyString => EmptyString
  end.

(** A match of the whole pattern starting at the head of the text. *)
Fixpoint match_here (re : list atom) (text : string) : bool :=
  match re, text with
  | [], _ => true
  | Lit x :: re', String c text' =>
      Ascii.eqb (lower x) (lower c) && match_here re' text'
  | AnyChar :: re', String c text' =>
      negb (Ascii.eqb c "010"%char)
      && match_here re' (skip_continuation text')
  | _ :: _, EmptyString => false
  end.

(** A match starting at any character of the text. *)
Fixpoint search (re : list atom) (text : string) : bool :=
  match text with
  | EmptyString => match_here re text
  | String c text' =>
      (negb (continuation c) && match_here re text) || search re text'
  end.

Definition sample : engine :=
  fun pattern options =>
  if String.eqb options "i" then search <$> parse pattern else None.

End Regex.

(** ** The query object handed to [Request.find] *)

Module Filter.

Record t := mk {
  userId : option ObjectId;
  status : option string;
  requestType : option string;
  priority : option string;
  or_title_description : option (string → bool)
}.

(** [{}] *)
Definition empty : t := mk None None None None None.

(** [{ path: v }] *)
Definition eq_cond (cond field : option string) : bool :=
  match cond with
  | Some v => bool_decide (field = Some v)
  | None => true
  end.

(** [{ $or: [ { title: re }, { description: re } ] }] *)
Definition or_cond (cond : option (string → bool)) (r : Request.t) : bool :=
  match cond with
  | Some matcher =>
      Regex.test matcher (Request.title r)
      || Regex.test matcher (Request.description r)
  | None => true
  end.

(** The conditions of a query object are conjoined. *)
Definition matches (q : t) (r : Request.t) : bool :=
  eq_cond (userId q) (Some (Request.userId r))
  && eq_cond (status q) (Request.status r)
  && eq_cond (requestType q) (Request.requestType r)
  && eq_cond (priority q) (Request.priority r)
  && or_cond (or_title_description q) r.

(** [Request.find(q)] *)
Definition find (q : t) (db : Collection.t) : list (ObjectId * Request.t) :=
  List.filter (fun d => matches q d.2) (Collection.docs db).

End Filter.

(** ** Document construction *)

Module Model.

(** The object literal handed to [Request.create]. *)
Record fields := mk_fields {
  userId : ObjectId;
  requestType : option string;
  title : option string;
  description : option string;
  correctionDetails : option CorrectionDetails.t;
  uploadedDocuments : list FileRef.t;
  priority : option string
}.

(** [uploadedAt] defaults to [Date.now]. *)
Definition uploaded (now : Date) (f : FileRef.t) : UploadedDocument.t :=
  UploadedDocument.mk (FileRef.fileName f) (FileRef.fileUrl f)
    (FileRef.fileType f) now.

(** [new Request(fields)] with the schema defaults: [status] is
    ['submitted'], [priority] is ['medium'] when not given, the two arrays
    are empty and both dates are [Date.now]. *)
Definition new_document (now : Date) (f : fields) : Request.t :=
  Request.mk (userId f) (requestType f) (title f) (description f)
    (correctionDetails f) (uploaded now <$> uploadedDocuments f)
    (Some "submitted") [] []
    (match priority f with Some p => Some p | None => Some "medium" end)
    None now now None None.

(** [Request.create(fields)]: build the document and save it as new. [oid]
    is the ObjectId the driver generates. *)
Definition create (oid : ObjectId) (now : Date) (f : fields) (db : Collection.t)
  : Mongoose.Error + (Request.t * Collection.t) :=
  Collection.save true now oid (new_document now f) db.

End Model.

(** ** The authorisation middleware *)

Module Auth.

(** Modelled from the spec: middleware/auth.js is not in the sources at
    hand. [authorize(...roles)] lets the request through to the next
    handler when the role of the caller is one of [roles], and otherwise
    answers 403 itself ("Fails with AuthorizationError if caller is not
    admin"). [None] stands for the call of [next()]. *)
Definition authorize (roles : list string) (req : Req.t) : option Response :=
  if bool_decide (User.role (Req.user req) ∈ roles) then None
  else Some (json 403 false None no_payload).

End Auth.

(** ** controllers/requestController.js *)

Module Controller.

Abbreviation handler := (Req.t → Collection.t → Collection.t * Response)
  (only parsing).

Definition createRequest (oid : ObjectId) (now : Date) : handler :=
  fun req db =>
  let b := Req.body req in
  match
    Model.create oid now
      (Model.mk_fields (User.id (Req.user req)) (Body.requestType b)
         (Body.title b) (Body.description b) (Body.correctionDetails b)
         (Body.uploadedDocuments b)
         (Some (Js.or_else (Body.priority b) "medium")))
      db
  with
  | inr (request, db') =>
      (db', json 201 true (Some "Request submitted successfully")
              (one_request oid request))
  | inl error => (db, next error)
  end.

Definition getMyRequests : handler :=
  fun req db =>
  let requests :=
    Collection.sort_createdAt_desc
      (Filter.find
         (Filter.mk (Some (User.id (Req.user req))) None None None None) db) in
  (db, json 200 true None (many_requests (length requests) requests)).

(** [populate('userId', ...)] replaces the owner's id by the owner's
    document, whose [_id] is that id again; the owner is taken to exist. *)
Definition getRequestById : handler :=
  fun req db =>
  match Collection.findById (Req.params_id req) db with
  | inl error => (db, next error)
  | inr None => (db, json 404 false (Some "Request not found") no_payload)
  | inr (Some request) =>
      (* Check ownership or admin role *)
      if bool_decide (Request.userId request ≠ User.id (Req.user req))
         && bool_decide (User.role (Req.user req) ≠ "admin")
      then (db, json 403 false (Some "Not authorized to view this request")
                  no_payload)
      else (db, json 200 true None (one_request (Req.params_id req) request))
  end.

(** The server compiles the pattern when the query runs; when it does not
    compile, [find] rejects and the handler hands the error to [next]. *)
Definition getAllRequests (regex : Regex.engine) : handler :=
  fun req db =>
  let q := Req.query req in
  let query := Filter.empty in
  (* Filter by status *)
  let query :=
    if Js.truthy (Query.status q) then
      Filter.mk (Filter.userId query) (Query.status q)
        (Filter.requestType query) (Filter.priority query)
        (Filter.or_title_description query)
    else query in
  (* Filter by request type *)
  let query :=
    if Js.truthy (Query.requestType q) then
      Filter.mk (Filter.userId query) (Filter.status query)
        (Query.requestType q) (Filter.priority query)
        (Filter.or_title_description query)
    else query in
  (* Filter by priority *)
  let query :=
    if Js.truthy (Query.priority q) then
      Filter.mk (Filter.userId query) (Filter.status query)
        (Filter.requestType query) (Query.priority q)
        (Filter.or_title_description query)
    else query in
  (* Search by title or description *)
  let query :=
    if Js.truthy (Query.search q) then
      match regex (Js.interpolate (Query.search q)) "i" with
      | Some matcher =>
          inr (Filter.mk (Filter.userId query) (Filter.status query)
                 (Filter.requestType query) (Filter.priority query)
                 (Some matcher))
      | None => inl (Mongoose.RegexError (Js.interpolate (Query.search q)))
      end
    else inr query in
  match query with
  | inl error => (db, next error)
  | inr query =>
      let requests := Collection.sort_createdAt_desc (Filter.find query db) in
      (db, json 200 true None (many_requests (length requests) requests))
  end.

Definition updateRequestStatus (now : Date) : handler :=
  fun req db =>
  let status := Body.status (Req.body req) in
  let message := Body.message (Req.body req) in
  match Collection.findById (Req.params_id req) db with
  | inl error => (db, next error)
  | inr None => (db, json 404 false (Some "Request not found") no_payload)
  | inr (Some request) =>
      (* Update status *)
      let request := Request.set_status status request in
      (* Add timeline event *)
      let request :=
        Request.push_timeline
          (TimelineEvent.mk status
             (Some (Js.or_else message
                      ("Status updated to " +:+ Js.interpolate status)))
             (Some (User.id (Req.user req)))
             (Some (User.fullName (Req.user req)))
             now)
          request in
      (* Set completion date if completed *)
      let request :=
        if bool_decide (status = Some "completed")
        then Request.set_completedAt (Some now) request
        else request in
      match Collection.save false now (Req.params_id req) request db with
      | inr (request, db') =>
          (db', json 200 true (Some "Request status updated successfully")
                  (one_request (Req.params_id req) request))
      | inl error => (db, next error)
      end
  end.

Definition addRemark (now : Date) : handler :=
  fun req db =>
  let remark := Body.remark (Req.body req) in
  if negb (Js.truthy remark) then
    (db, json 400 false (Some "Remark is required") no_payload)
  else
    match Collection.findById (Req.params_id req) db with
    | inl error => (db, next error)
    | inr None => (db, json 404 false (Some "Request not found") no_payload)
    | inr (Some request) =>
        (* Add remark *)
        let request :=
          Request.push_adminRemarks
            (AdminRemark.mk (User.id (Req.user req))
               (User.fullName (Req.user req)) remark now)
            request in
        (* Add to timeline *)
        let request :=
          Request.push_timeline
            (TimelineEvent.mk (Request.status request)
               (Some ("Admin added a remark: " +:+ Js.interpolate remark))
               (Some (User.id (Req.user req)))
               (Some (User.fullName (Req.user req)))
               now)
            request in
        match Collection.save false now (Req.params_id req) request db with
        | inr (request, db') =>
            (db', json 200 true (Some "Remark added successfully")
                    (one_request (Req.params_id req) request))
        | inl error => (db, next error)
        end
    end.

Definition rejectRequest (now : Date) : handler :=
  fun req db =>
  let reason := Body.reason (Req.body req) in
  if negb (Js.truthy reason) then
    (db, json 400 false (Some "Rejection reason is required") no_payload)
  else
    match Collection.findById (Req.params_id req) db with
    | inl error => (db, next error)
    | inr None => (db, json 404 false (Some "Request not found") no_payload)
    | inr (Some request) =>
        let request := Request.set_status (Some "rejected") request in
        let request := Request.set_rejectionReason reason request in
        let request :=
          Request.push_timeline
            (TimelineEvent.mk (Some "rejected")
               (Some ("Request rejected: " +:+ Js.interpolate reason))
               (Some (User.id (Req.user req)))
               (Some (User.fullName (Req.user req)))
               now)
            request in
        match Collection.save false now (Req.params_id req) request db with
        | inr (request, db') =>
            (db', json 200 true (Some "Request rejected successfully")
                    (one_request (Req.params_id req) request))
        | inl error => (db, next error)
        end
    end.

(** The property name that [byStatus[stat._id]] writes to. *)
Definition property_key (v : option string) : string :=
  match v with
  | Some s => s
  | None => "null"
  end.

Definition getRequestStats : handler :=
  fun req db =>
  let stats := Collection.group_by_status (Collection.docs db) in
  let totalRequests := Collection.countDocuments db in
  let byStatus :=
    foldl (fun (o : gmap string nat) stat => <[property_key stat.1 := stat.2]> o)
      ∅ stats in
  (db, json 200 true None (the_stats (Stats.mk totalRequests byStatus))).

End Controller.

(** ** The route table *)

Module Routes.

(** [router.METHOD(path, protect, authorize('admin'), handler)] *)
Definition admin_only (h : Controller.handler) : Controller.handler :=
  fun req db =>
  match Auth.authorize ["admin"] req with
  | Some response => (db, response)
  | None => h req db
  end.

Definition post_request := Controller.createRequest.
Definition get_my_requests := Controller.getMyRequests.
Definition get_request := Controller.getRequestById.

Definition get_requests (regex : Regex.engine) :=
  admin_only (Controller.getAllRequests regex).

Definition get_stats := admin_only Controller.getRequestStats.
Definition patch_status (now : Date) :=
  admin_only (Controller.updateRequestStatus now).
Definition post_remarks (now : Date) := admin_only (Controller.addRemark now).
Definition post_reject (now : Date) := admin_only (Controller.rejectRequest now).

End Routes.

(** ** The typed failures of the specification *)

Module Failure.

Inductive t :=
  | ValidationError
  | NotFoundError
  | AuthorizationError
  | PersistenceError.

(** How a response reads as a typed failure: 400 and a schema rejection are
    a [ValidationError], 404 a [NotFoundError], 403 an
    [AuthorizationError], and any other error handed to [next] a
    [PersistenceError]. A 2xx response is no failure. What the error
    handler sends for an error handed to [next] is not looked at. *)
Definition of_response (r : Response) : option t :=
  match r with
  | json code _ _ _ =>
      if code =? 400 then Some ValidationError
      else if code =? 404 then Some NotFoundError
      else if code =? 403 then Some AuthorizationError
      else None
  | next (Mongoose.ValidationError _) => Some ValidationError
  | next _ => Some PersistenceError
  end.

End Failure.

(** * The vocabulary of the properties *)

(** ** Stored documents

    Every document the handlers write has passed the schema, and the
    [default] of [status] together with the [required] status of each
    timeline event keeps [status] present. *)

Definition well_formed (r : Request.t) : Prop :=
  Request.validate r = [] ∧ is_Some (Request.status r).

Definition consistent (db : Collection.t) : Prop :=
  map_Forall (fun _ r => well_formed r) db.

#[global] Instance well_formed_dec r : Decision (well_formed r).
Proof. unfold well_formed. apply _. Defined.

(** A response that is no typed failure. *)
Definition succeeded (resp : Response) : bool :=
  bool_decide (Failure.of_response resp = None).

(** ** Sequences of calls

    The four handlers that write to the collection, as the calls a client
    can make. *)

Inductive Call :=
  | Create (oid : ObjectId) (now : Date) (req : Req.t)
  | UpdateStatus (now : Date) (req : Req.t)
  | AddRemark (now : Date) (req : Req.t)
  | Reject (now : Date) (req : Req.t).

Definition step (c : Call) (db : Collection.t) : Collection.t * Response :=
  match c with
  | Create oid now req => Controller.createRequest oid now req db
  | UpdateStatus now req => Controller.updateRequestStatus now req db
  | AddRemark now req => Controller.addRemark now req db
  | Reject now req => Controller.rejectRequest now req db
  end.

(** The request a call is about. *)
Definition target (c : Call) : ObjectId :=
  match c with
  | Create oid _ _ => oid
  | UpdateStatus _ req | AddRemark _ req | Reject _ req => Req.params_id req
  end.

(** Run the calls in order; the log pairs each call with its response. *)
Fixpoint run (calls : list Call) (db : Collection.t)
  : Collection.t * list (Call * Response) :=
  match calls with
  | [] => (db, [])
  | c :: calls =>
      let '(db', resp) := step c db in
      let '(db'', log) := run calls db' in
      (db'', (c, resp) :: log)
  end.


(** [reaches past db]: the collection [db] is what some sequence of calls
    made of the empty collection, and [past] are the collections it went
    through on the way, the latest first. *)
Inductive reaches : list Collection.t → Collection.t → Prop :=
  | reaches_empty : reaches [] ∅
  | reaches_step past db c :
      reaches past db → reaches (db :: past) (step c db).1.


(** The event that [pre('save')] pushes on a new document. *)
Definition seed (now : Date) : TimelineEvent.t :=
  TimelineEvent.mk (Some "submitted") (Some "Request submitted successfully")
    None None now.

(** ** The filter of [listAll] in the words of the specification

    Case-insensitive substring search, written without the pattern
    machinery. *)

Fixpoint ci_prefix (needle text : string) : bool :=
  match needle, text with
  | EmptyString, _ => true
  | String a needle', String b text' =>
      Ascii.eqb (Regex.lower a) (Regex.lower b) && ci_prefix needle' text'
  | String _ _, EmptyString => false
  end.

Fixpoint ci_substring (needle text : string) : bool :=
  ci_prefix needle text ||
  match text with
  | EmptyString => false
  | String _ text' => ci_substring needle text'
  end.

Definition ci_substring_of (needle : string) (field : option string) : bool :=
  match field with
  | Some text => ci_substring needle text
  | None => false
  end.

(** An option that is unset ([undefined] or empty) constrains nothing; a set
    one must equal the path of the request. *)
Definition exact (option_ field : option string) : bool :=
  if Js.truthy option_ then bool_decide (field = option_) else true.

(** The search option, with the matching of one text against the search
    string left open. *)
Definition searched (found : string → option string → bool)
  (q : Query.t) (r : Request.t) : bool :=
  match Query.search q with
  | Some s =>
      if String.eqb s "" then true
      else found s (Request.title r) || found s (Request.description r)
  | None => true
  end.

(** All set options at once. *)
Definition satisfies (found : string → option string → bool)
  (q : Query.t) (r : Request.t) : bool :=
  exact (Query.status q) (Request.status r)
  && exact (Query.requestType q) (Request.requestType r)
  && exact (Query.priority q) (Request.priority r)
  && searched found q r.

(** The search string read as a pattern by the engine, under [i]. *)
Definition regex_found (regex : Regex.engine) (s : string)
  (field : option string) : bool :=
  match regex s "i", field with
  | Some matcher, Some text => matcher text
  | _, _ => false
  end.

(** The number of documents of a list whose status is [k]. *)
Definition occurrences (k : option string) (l : list (ObjectId * Request.t))
  : nat :=
  length (List.filter (fun d => bool_decide (Request.status d.2 = k)) l).

(** The number of stored requests whose status is [s]. *)
Definition count_status (s : string) (db : Collection.t) : nat :=
  occurrences (Some s) (Collection.docs db).

(** The groups of an aggregation, read as a map from status to count. *)
Definition as_map (groups : list (option string * nat))
  : gmap (option string) nat :=
  list_to_map groups.

(** ** Creation

    The inputs the specification calls valid, and what it promises of the
    outcome. *)

Definition valid_creation_input (b : Body.t) : Prop :=
  (∃ ty, Body.requestType b = Some ty ∧ ty ∈ Request.requestType_enum)
  ∧ Js.truthy (Body.title b) = true
  ∧ Js.truthy (Body.description b) = true.

Definition created (oid : ObjectId) (now : Date) (req : Req.t)
  (db : Collection.t) : Prop :=
  ∃ r,
    Controller.createRequest oid now req db =
      (<[oid := r]> db,
       json 201 true (Some "Request submitted successfully")
         (one_request oid r))
    ∧ Request.status r = Some "submitted"
    ∧ Request.priority r =
        Some (Js.or_else (Body.priority (Req.body req)) "medium")
    ∧ Request.timeline r = [seed now].

(** ** Sample data *)

(** ObjectIds: of five requests, of one more that is never stored, of two
    users and of two admins; and two strings that are no ObjectIds. *)
Module Ids.
Definition r1 : ObjectId := "64b7f0c2a1d34e5f6a7b8c01".
Definition r2 : ObjectId := "64b7f0c2a1d34e5f6a7b8c02".
Definition r3 : ObjectId := "64b7f0c2a1d34e5f6a7b8c03".
Definition r4 : ObjectId := "64b7f0c2a1d34e5f6a7b8c04".
Definition r5 : ObjectId := "64b7f0c2a1d34e5f6a7b8c05".
Definition unknown : ObjectId := "64b7f0c2a1d34e5f6a7b8c09".
Definition alice : ObjectId := "64b7f0c2a1d34e5f6a7b8d01".
Definition bob : ObjectId := "64b7f0c2a1d34e5f6a7b8d02".
Definition root : ObjectId := "64b7f0c2a1d34e5f6a7b8e01".
Definition desk : ObjectId := "64b7f0c2a1d34e5f6a7b8e02".
Definition stats : string := "stats".
Definition zz : string := "zz".
End Ids.

Module Sample.

Definition alice : User.t := User.mk Ids.alice "user" "Alice" "Ames".
Definition bob : User.t := User.mk Ids.bob "user" "Bob" "Buck".
Definition root : User.t := User.mk Ids.root "admin" "Rhea" "Root".

Definition no_body : Body.t :=
  Body.mk None None None None [] None None None None None.
Definition no_query : Query.t := Query.mk None None None None.

(** A request for a transcript, priority left out. *)
Definition transcript : Body.t :=
  Body.mk (Some "transcript") (Some "Transcript") (Some "Two copies") None []
    None None None None None.

(** The same with a priority the schema does not know. *)
Definition transcript_asap : Body.t :=
  Body.mk (Some "transcript") (Some "Transcript") (Some "Two copies") None []
    (Some "asap") None None None None.

Definition status_body (s : string) : Body.t :=
  Body.mk None None None None [] None (Some s) None None None.
Definition remark_body (s : string) : Body.t :=
  Body.mk None None None None [] None None None (Some s) None.
Definition reason_body (s : string) : Body.t :=
  Body.mk None None None None [] None None None None (Some s).

Definition on (id : ObjectId) (u : User.t) (b : Body.t) : Req.t :=
  Req.mk id u b no_query.

(** Alice's request [Ids.r1], created at time 10. *)
Definition db1 : Collection.t :=
  (Controller.createRequest Ids.r1 10 (on "" alice transcript) ∅).1.

Definition r1 : Request.t :=
  Request.mk Ids.alice (Some "transcript") (Some "Transcript") (Some "Two copies")
    None [] (Some "submitted") [] [seed 10] (Some "medium") None 10 10 None
    None.

(** The request after an admin has set it to [completed] at time 20. *)
Definition complete : Call :=
  UpdateStatus 20 (on Ids.r1 root (status_body "completed")).
Definition db2 : Collection.t := (step complete db1).1.

(** Five requests, of which the last two are completed. *)
Definition five : list Call :=
  [ Create Ids.r1 10 (on "" alice transcript);
    Create Ids.r2 11 (on "" alice transcript);
    Create Ids.r3 12 (on "" bob transcript);
    Create Ids.r4 13 (on "" bob transcript);
    Create Ids.r5 14 (on "" bob transcript);
    UpdateStatus 20 (on Ids.r4 root (status_body "completed"));
    UpdateStatus 21 (on Ids.r5 root (status_body "completed")) ].
Definition db5 : Collection.t := (run five ∅).1.

(** Three calls on [Ids.r1] by an admin. *)
Definition calls : list Call :=
  [ UpdateStatus 20 (on Ids.r1 root (status_body "completed"));
    AddRemark 30 (on Ids.r1 root (remark_body "collected at the desk"));
    Reject 40 (on Ids.r1 root (reason_body "issued by mistake")) ].

End Sample.

(** ** The documents the handlers store

    What each of the four writing handlers hands to the collection when the
    save goes through: the assignments of the handler, then the
    [pre('save')] hook. *)

Definition created_doc (now : Date) (req : Req.t) : Request.t :=
  let b := Req.body req in
  Request.pre_save true now
    (Model.new_document now
       (Model.mk_fields (User.id (Req.user req)) (Body.requestType b)
          (Body.title b) (Body.description b) (Body.correctionDetails b)
          (Body.uploadedDocuments b)
          (Some (Js.or_else (Body.priority b) "medium")))).

Definition status_event (now : Date) (req : Req.t) : TimelineEvent.t :=
  let status := Body.status (Req.body req) in
  TimelineEvent.mk status
    (Some (Js.or_else (Body.message (Req.body req))
             ("Status updated to " +:+ Js.interpolate status)))
    (Some (User.id (Req.user req))) (Some (User.fullName (Req.user req))) now.

Definition updated_doc (now : Date) (req : Req.t) (r : Request.t) : Request.t :=
  let status := Body.status (Req.body req) in
  let doc :=
    Request.push_timeline (status_event now req) (Request.set_status status r) in
  Request.pre_save false now
    (if bool_decide (status = Some "completed")
     then Request.set_completedAt (Some now) doc else doc).

Definition remark_entry (now : Date) (req : Req.t) : AdminRemark.t :=
  AdminRemark.mk (User.id (Req.user req)) (User.fullName (Req.user req))
    (Body.remark (Req.body req)) now.

Definition remark_event (now : Date) (req : Req.t) (r : Request.t)
  : TimelineEvent.t :=
  TimelineEvent.mk (Request.status r)
    (Some ("Admin added a remark: "
           +:+ Js.interpolate (Body.remark (Req.body req))))
    (Some (User.id (Req.user req))) (Some (User.fullName (Req.user req))) now.

Definition remarked_doc (now : Date) (req : Req.t) (r : Request.t) : Request.t :=
  Request.pre_save false now
    (Request.push_timeline (remark_event now req r)
       (Request.push_adminRemarks (remark_entry now req) r)).

Definition reject_event (now : Date) (req : Req.t) : TimelineEvent.t :=
  TimelineEvent.mk (Some "rejected")
    (Some ("Request rejected: "
           +:+ Js.interpolate (Body.reason (Req.body req))))
    (Some (User.id (Req.user req))) (Some (User.fullName (Req.user req))) now.

Definition rejected_doc (now : Date) (req : Req.t) (r : Request.t) : Request.t :=
  Request.pre_save false now
    (Request.push_timeline (reject_event now req)
       (Request.set_rejectionReason (Body.reason (Req.body req))
          (Request.set_status (Some "rejected") r))).

(** The paths of a request that no handler assigns after creation. *)
Definition same_submission (r r' : Request.t) : Prop :=
  Request.userId r' = Request.userId r
  ∧ Request.requestType r' = Request.requestType r
  ∧ Request.title r' = Request.title r
  ∧ Request.description r' = Request.description r
  ∧ Request.correctionDetails r' = Request.correctionDetails r
  ∧ Request.uploadedDocuments r' = Request.uploadedDocuments r
  ∧ Request.priority r' = Request.priority r
  ∧ Request.createdAt r' = Request.createdAt r
  ∧ Request.expectedCompletionDate r' = Request.expectedCompletionDate r.

(** A call to [createRequest]. *)
Definition is_create (c : Call) : bool :=
  match c with
  | Create _ _ _ => true
  | _ => false
  end.

(** The timeline shows the remark [a]: some event has the message of the
    mirror and the admin of the remark. *)
Definition mirrored (a : AdminRemark.t) (tl : list TimelineEvent.t) : Prop :=
  ∃ e, e ∈ tl
    ∧ TimelineEvent.message e =
        Some ("Admin added a remark: " +:+ Js.interpolate (AdminRemark.remark a))
    ∧ TimelineEvent.performedBy e = Some (AdminRemark.admin a)
    ∧ TimelineEvent.performedByName e = Some (AdminRemark.adminName a).

(** What [createRequest] demands of a body. *)
Definition acceptable (b : Body.t) : Prop :=
  valid_creation_input b
  ∧ (Js.truthy (Body.priority b) = true →
     ∃ p, Body.priority b = Some p ∧ p ∈ Request.priority_enum).

(** A query with one option, the status. *)
Definition by_status (s : string) : Query.t :=
  Query.mk (Some s) None None None.

(** The count [byStatus] shows for a status, 0 when it has no entry. *)
Definition shown (stats : Stats.t) (s : string) : nat :=
  default 0%nat (Stats.byStatus stats !! s).

(** ** More sample data *)

Module Trail.

(** A body without a title. *)
Definition untitled : Body.t :=
  Body.mk (Some "transcript") (Some "") (Some "Two copies") None [] None None
    None None None.

(** After the completion of [Sample.db2]: a remark, then a rejection. *)
Definition remark : Call :=
  AddRemark 30
    (Sample.on Ids.r1 Sample.root (Sample.remark_body "collected at the desk")).
Definition db3 : Collection.t := (step remark Sample.db2).1.

Definition reject : Call :=
  Reject 40
    (Sample.on Ids.r1 Sample.root (Sample.reason_body "issued by mistake")).
Definition db4 : Collection.t := (step reject db3).1.


(** An update of a request that is not stored, and one to a status that is
    not in the enumeration. *)
Definition failing : list Call :=
  [ UpdateStatus 50 (Sample.on Ids.unknown Sample.root (Sample.status_body "ready"));
    UpdateStatus 51 (Sample.on Ids.r1 Sample.root (Sample.status_body "lost"));
    Create Ids.r1 52 (Sample.on "" Sample.bob Sample.transcript) ].

End Trail.

(** ** Who performed what *)

(** The user who makes a call. *)
Definition caller (c : Call) : User.t :=
  match c with
  | Create _ _ req | UpdateStatus _ req | AddRemark _ req | Reject _ req =>
      Req.user req
  end.


Module Audit.

(** A second admin. *)
Definition desk : User.t := User.mk Ids.desk "admin" "Dana" "Desk".

(** A status together with a message of the admin's own. *)
Definition status_with_message (s m : string) : Body.t :=
  Body.mk None None None None [] None (Some s) (Some m) None None.

(** Alice submits; Rhea takes the request up, Dana remarks on it, Rhea
    rejects it. *)
Definition calls : list Call :=
  [ Create Ids.r1 10 (Sample.on "" Sample.alice Sample.transcript);
    UpdateStatus 20 (Sample.on Ids.r1 Sample.root (Sample.status_body "under_review"));
    AddRemark 30 (Sample.on Ids.r1 desk (Sample.remark_body "fee receipt missing"));
    Reject 40 (Sample.on Ids.r1 Sample.root (Sample.reason_body "no fee paid")) ].

End Audit.

(** Decide a closed proposition by evaluation. *)
Ltac by_compute := apply (bool_decide_unpack _); vm_compute; exact I.

(** * Properties *)

(** ** JavaScript strings *)

Lemma truthy_Some s : Js.truthy (Some s) = true ↔ s ≠ "".
Proof.
  unfold Js.truthy. destruct (String.eqb_spec s ""); simpl; split; congruence.
Qed.

Lemma truthy_is_Some v : Js.truthy v = true → ∃ s, v = Some s ∧ s ≠ "".
Proof.
  destruct v as [s|]; [|discriminate]. intros H. exists s.
  split; [done|]. by apply truthy_Some.
Qed.

Lemma or_else_nonempty v d : d ≠ "" → Js.truthy (Some (Js.or_else v d)) = true.
Proof.
  intros Hd. apply truthy_Some. destruct v as [s|]; simpl; [|done].
  by destruct (String.eqb_spec s "").
Qed.

(** ** Validation *)

Lemma check_nil path ok : Request.check path ok = [] ↔ ok = true.
Proof. destruct ok; simpl; split; congruence. Qed.

Lemma validate_nil r :
  Request.validate r = [] ↔
    Request.required (Request.requestType r) = true
    ∧ Request.enum Request.requestType_enum (Request.requestType r) = true
    ∧ Request.required (Request.title r) = true
    ∧ Request.required (Request.description r) = true
    ∧ Request.enum Request.status_enum (Request.status r) = true
    ∧ forallb Request.validate_event (Request.timeline r) = true
    ∧ Request.enum Request.priority_enum (Request.priority r) = true.
Proof.
  unfold Request.validate.
  rewrite !app_nil, !check_nil, andb_true_iff. tauto.
Qed.

Lemma enum_Some values s :
  Request.enum values (Some s) = true ↔ s ∈ values.
Proof. simpl. apply bool_decide_eq_true. Qed.

Lemma forallb_snoc {A} (f : A → bool) l x :
  forallb f (l ++ [x]) = forallb f l && f x.
Proof. rewrite forallb_app. simpl. by rewrite andb_true_r. Qed.

(** ** [doc.save()] *)

Lemma save_valid isNew now id r db :
  Request.validate r = [] →
  Collection.save isNew now id r db =
    if isNew && bool_decide (is_Some (db !! id))
    then inl Mongoose.DuplicateKeyError
    else inr (Request.pre_save isNew now r,
              <[id := Request.pre_save isNew now r]> db).
Proof. intros H. unfold Collection.save. by rewrite H. Qed.

Lemma save_invalid isNew now id r db :
  Request.validate r ≠ [] →
  Collection.save isNew now id r db =
    inl (Mongoose.ValidationError (Request.validate r)).
Proof.
  intros H. unfold Collection.save. by destruct (Request.validate r).
Qed.

Lemma save_inr isNew now id r db r' db' :
  Collection.save isNew now id r db = inr (r', db') →
  Request.validate r = []
  ∧ r' = Request.pre_save isNew now r
  ∧ db' = <[id := r']> db
  ∧ (isNew = true → db !! id = None).
Proof.
  unfold Collection.save. destruct (Request.validate r); [|discriminate].
  destruct isNew; simpl.
  - case_bool_decide as Hin; [discriminate|]. intros [= <- <-].
    repeat split. intros _. by apply eq_None_not_Some.
  - intros [= <- <-]. by repeat split.
Qed.

(** ** [Request.findById] *)

Lemma findById_Some id db r :
  db !! id = Some r → Collection.findById id db = inr (Some r).
Proof. intros H. unfold Collection.findById. by rewrite H. Qed.

Lemma findById_None id db :
  db !! id = None →
  Collection.findById id db =
    if ObjectIds.isValid id then inr None else inl (Mongoose.CastError id).
Proof. intros H. unfold Collection.findById. by rewrite H. Qed.

Lemma rendered_isValid id : ObjectIds.rendered id = true → ObjectIds.isValid id = true.
Proof.
  unfold ObjectIds.rendered, ObjectIds.isValid.
  intros [Hlen Hall]%andb_true_iff. rewrite Hlen. simpl.
  rewrite forallb_forall in Hall |- *. intros c Hc.
  by rewrite (Hall c Hc), orb_true_l.
Qed.

(** ** The handlers, one branch at a time *)

Lemma validate_set_updatedAt now r :
  Request.validate (Request.set_updatedAt now r) = Request.validate r.
Proof. done. Qed.

Lemma validate_set_completedAt v r :
  Request.validate (Request.set_completedAt v r) = Request.validate r.
Proof. done. Qed.

Lemma updateRequestStatus_found now req db r :
  db !! Req.params_id req = Some r →
  let status := Body.status (Req.body req) in
  let event :=
    TimelineEvent.mk status
      (Some (Js.or_else (Body.message (Req.body req))
               ("Status updated to " +:+ Js.interpolate status)))
      (Some (User.id (Req.user req))) (Some (User.fullName (Req.user req)))
      now in
  let doc := Request.push_timeline event (Request.set_status status r) in
  let doc' :=
    Request.set_updatedAt now
      (if bool_decide (status = Some "completed")
       then Request.set_completedAt (Some now) doc else doc) in
  Controller.updateRequestStatus now req db =
    match Request.validate doc with
    | [] =>
        (<[Req.params_id req := doc']> db,
         json 200 true (Some "Request status updated successfully")
           (one_request (Req.params_id req) doc'))
    | paths => (db, next (Mongoose.ValidationError paths))
    end.
Proof.
  intros Hr. simpl.
  unfold Controller.updateRequestStatus. rewrite (findById_Some _ _ _ Hr).
  unfold Collection.save.
  case_bool_decide; rewrite ?validate_set_completedAt;
    by destruct (Request.validate _).
Qed.

Lemma addRemark_found now req db r :
  db !! Req.params_id req = Some r →
  Js.truthy (Body.remark (Req.body req)) = true →
  let remark := Body.remark (Req.body req) in
  let entry :=
    AdminRemark.mk (User.id (Req.user req)) (User.fullName (Req.user req))
      remark now in
  let event :=
    TimelineEvent.mk (Request.status r)
      (Some ("Admin added a remark: " +:+ Js.interpolate remark))
      (Some (User.id (Req.user req))) (Some (User.fullName (Req.user req)))
      now in
  let doc := Request.push_timeline event (Request.push_adminRemarks entry r) in
  Controller.addRemark now req db =
    match Request.validate doc with
    | [] =>
        (<[Req.params_id req := Request.set_updatedAt now doc]> db,
         json 200 true (Some "Remark added successfully")
           (one_request (Req.params_id req) (Request.set_updatedAt now doc)))
    | paths => (db, next (Mongoose.ValidationError paths))
    end.
Proof.
  intros Hr Ht. simpl.
  unfold Controller.addRemark. rewrite Ht, (findById_Some _ _ _ Hr). simpl.
  unfold Collection.save. by destruct (Request.validate _).
Qed.

Lemma rejectRequest_found now req db r :
  db !! Req.params_id req = Some r →
  Js.truthy (Body.reason (Req.body req)) = true →
  let reason := Body.reason (Req.body req) in
  let event :=
    TimelineEvent.mk (Some "rejected")
      (Some ("Request rejected: " +:+ Js.interpolate reason))
      (Some (User.id (Req.user req))) (Some (User.fullName (Req.user req)))
      now in
  let doc :=
    Request.push_timeline event
      (Request.set_rejectionReason reason
         (Request.set_status (Some "rejected") r)) in
  Controller.rejectRequest now req db =
    match Request.validate doc with
    | [] =>
        (<[Req.params_id req := Request.set_updatedAt now doc]> db,
         json 200 true (Some "Request rejected successfully")
           (one_request (Req.params_id req) (Request.set_updatedAt now doc)))
    | paths => (db, next (Mongoose.ValidationError paths))
    end.
Proof.
  intros Hr Ht. simpl.
  unfold Controller.rejectRequest. rewrite Ht, (findById_Some _ _ _ Hr). simpl.
  unfold Collection.save. by destruct (Request.validate _).
Qed.

Lemma admin_passes req :
  User.role (Req.user req) = "admin" → Auth.authorize ["admin"] req = None.
Proof.
  intros H. unfold Auth.authorize. rewrite bool_decide_true; [done|].
  rewrite H. by apply list_elem_of_singleton.
Qed.

Lemma other_role_stopped req :
  User.role (Req.user req) ≠ "admin" →
  Auth.authorize ["admin"] req = Some (json 403 false None no_payload).
Proof.
  intros H. unfold Auth.authorize. rewrite bool_decide_false; [done|].
  by intros ?%list_elem_of_singleton.
Qed.

(** ** An id that is no ObjectId *)

Lemma getRequestById_cast_error req db :
  db !! Req.params_id req = None →
  ObjectIds.isValid (Req.params_id req) = false →
  Controller.getRequestById req db
    = (db, next (Mongoose.CastError (Req.params_id req))).
Proof.
  intros Hr Hid. unfold Controller.getRequestById.
  by rewrite (findById_None _ _ Hr), Hid.
Qed.

Lemma updateRequestStatus_cast_error now req db :
  db !! Req.params_id req = None →
  ObjectIds.isValid (Req.params_id req) = false →
  Controller.updateRequestStatus now req db
    = (db, next (Mongoose.CastError (Req.params_id req))).
Proof.
  intros Hr Hid. unfold Controller.updateRequestStatus.
  by rewrite (findById_None _ _ Hr), Hid.
Qed.

Lemma rejectRequest_cast_error now req db :
  Js.truthy (Body.reason (Req.body req)) = true →
  db !! Req.params_id req = None →
  ObjectIds.isValid (Req.params_id req) = false →
  Controller.rejectRequest now req db
    = (db, next (Mongoose.CastError (Req.params_id req))).
Proof.
  intros Ht Hr Hid. unfold Controller.rejectRequest.
  by rewrite Ht, (findById_None _ _ Hr), Hid.
Qed.

(** ** Reading one request *)

(** C7, as amended. [getRequestById] answers 404 when the id is a
    well-formed ObjectId that no request has. An id that is no ObjectId is
    not answered with 404: the cast of [findById] fails and the handler
    hands the [CastError] to [next]. When a request has the id, the handler
    answers 403 exactly when the caller is neither an admin nor the owner,
    and sends the request to the owner and to any admin. The collection is
    left as it was. *)
Theorem getRequestById_spec req db :
  let id := Req.params_id req in
  let caller := Req.user req in
  (db !! id = None → ObjectIds.rendered id = true →
     Failure.of_response (Controller.getRequestById req db).2
       = Some Failure.NotFoundError)
  ∧ (db !! id = None → ObjectIds.isValid id = false →
       (Controller.getRequestById req db).2 = next (Mongoose.CastError id))
  ∧ (∀ r, db !! id = Some r →
       (Failure.of_response (Controller.getRequestById req db).2
          = Some Failure.AuthorizationError
        ↔ User.role caller ≠ "admin" ∧ User.id caller ≠ Request.userId r)
       ∧ (User.role caller = "admin" ∨ User.id caller = Request.userId r →
            Controller.getRequestById req db
              = (db, json 200 true None (one_request id r))))
  ∧ (Controller.getRequestById req db).1 = db.
Proof.
  simpl. unfold Controller.getRequestById.
  destruct (db !! Req.params_id req) as [r|] eqn:Hr.
  - rewrite (findById_Some _ _ _ Hr).
    split; [done|]. split; [done|]. split; [|by case_match].
    intros ? [= <-].
    case_bool_decide as Ho; case_bool_decide as Ha; simpl.
    all: split; [split|]; first [done | tauto | intuition congruence].
  - rewrite (findById_None _ _ Hr). split; [|split; [|split]].
    + intros _ Hid. by rewrite (rendered_isValid _ Hid).
    + intros _ Hid. by rewrite Hid.
    + done.
    + by destruct (ObjectIds.isValid _).
Qed.

Lemma getRequestById_spec_witness :
  Failure.of_response
    (Controller.getRequestById (Sample.on Ids.unknown Sample.alice Sample.no_body)
       Sample.db1).2 = Some Failure.NotFoundError
  ∧ (Controller.getRequestById (Sample.on Ids.zz Sample.alice Sample.no_body)
       Sample.db1).2 = next (Mongoose.CastError Ids.zz)
  ∧ Failure.of_response
      (Controller.getRequestById (Sample.on Ids.r1 Sample.bob Sample.no_body)
         Sample.db1).2 = Some Failure.AuthorizationError
  ∧ Controller.getRequestById (Sample.on Ids.r1 Sample.alice Sample.no_body)
      Sample.db1
    = (Sample.db1, json 200 true None (one_request Ids.r1 Sample.r1))
  ∧ Controller.getRequestById (Sample.on Ids.r1 Sample.root Sample.no_body)
      Sample.db1
    = (Sample.db1, json 200 true None (one_request Ids.r1 Sample.r1)).
Proof.
  destruct (getRequestById_spec
              (Sample.on Ids.unknown Sample.alice Sample.no_body)
              Sample.db1) as (H9 & _).
  destruct (getRequestById_spec
              (Sample.on Ids.zz Sample.alice Sample.no_body)
              Sample.db1) as (_ & Hz & _).
  destruct (getRequestById_spec
              (Sample.on Ids.r1 Sample.bob Sample.no_body) Sample.db1)
    as (_ & _ & Hb & _).
  destruct (getRequestById_spec
              (Sample.on Ids.r1 Sample.alice Sample.no_body) Sample.db1)
    as (_ & _ & Ha & _).
  destruct (getRequestById_spec
              (Sample.on Ids.r1 Sample.root Sample.no_body) Sample.db1)
    as (_ & _ & Hr & _).
  assert (Hl : Sample.db1 !! Ids.r1 = Some Sample.r1) by (by vm_compute).
  split; [apply H9; by vm_compute|].
  split; [apply Hz; by vm_compute|].
  split; [apply (Hb _ Hl); by vm_compute|].
  split; [apply (Ha _ Hl); right; reflexivity|].
  apply (Hr _ Hl); left; reflexivity.
Defined.

(** C7, as written, fails: no request has the id ["stats"], the id that
    [GET /api/requests/stats] puts in the path, and yet the answer is not a
    404: [findById] rejects with a [CastError], which the handler hands to
    [next]. *)
Lemma getRequestById_malformed_id :
  Sample.db1 !! Ids.stats = None
  ∧ Controller.getRequestById
      (Sample.on Ids.stats Sample.alice Sample.no_body) Sample.db1
    = (Sample.db1, next (Mongoose.CastError "stats"))
  ∧ Failure.of_response
      (Controller.getRequestById
         (Sample.on Ids.stats Sample.alice Sample.no_body) Sample.db1).2
    ≠ Some Failure.NotFoundError.
Proof.
  assert (Hr : Sample.db1 !! Ids.stats = None) by (by vm_compute).
  split; [exact Hr|].
  rewrite (getRequestById_cast_error
             (Sample.on Ids.stats Sample.alice Sample.no_body) Sample.db1 Hr)
    by reflexivity.
  split; [reflexivity|discriminate].
Qed.

(** ** Validation of the documents the handlers build *)

Lemma validate_push_timeline e r :
  Request.validate (Request.push_timeline e r) = [] ↔
    Request.validate r = [] ∧ Request.validate_event e = true.
Proof.
  rewrite !validate_nil. simpl. rewrite forallb_snoc, andb_true_iff. tauto.
Qed.

Lemma validate_push_adminRemarks a r :
  Request.validate (Request.push_adminRemarks a r) = Request.validate r.
Proof. done. Qed.

Lemma validate_set_rejectionReason v r :
  Request.validate (Request.set_rejectionReason v r) = Request.validate r.
Proof. done. Qed.

Lemma validate_set_status v r :
  Request.validate (Request.set_status v r) = [] ↔
    Request.validate (Request.set_status None r) = []
    ∧ Request.enum Request.status_enum v = true.
Proof. rewrite !validate_nil. simpl. tauto. Qed.

Lemma validate_set_status_None r :
  Request.validate r = [] → Request.validate (Request.set_status None r) = [].
Proof. rewrite !validate_nil. simpl. tauto. Qed.

Lemma validate_status_update r s e :
  Request.validate r = [] → s ∈ Request.status_enum →
  Request.validate_event e = true →
  Request.validate (Request.push_timeline e (Request.set_status (Some s) r))
    = [].
Proof.
  intros Hv Hs He. apply validate_push_timeline. split; [|done].
  apply validate_set_status.
  split; [by apply validate_set_status_None | by apply enum_Some].
Qed.

Lemma validate_event_by status message by_ name now :
  Request.validate_event (TimelineEvent.mk status message by_ name now)
    = Js.truthy status && Js.truthy message.
Proof. done. Qed.

Lemma enum_member_nonempty s : s ∈ Request.status_enum → s ≠ "".
Proof. intros Hs ->. apply (bool_decide_pack _) in Hs. by vm_compute in Hs. Qed.

(** ** Changing the status *)

Lemma or_else_supplied m d : m ≠ "" → Js.or_else (Some m) d = m.
Proof. intros Hm. simpl. by destruct (String.eqb_spec m ""). Qed.

Lemma or_else_missing v d : v = None ∨ v = Some "" → Js.or_else v d = d.
Proof. by intros [-> | ->]. Qed.

(** C3, as amended. Behind [authorize('admin')], [updateRequestStatus] on a
    stored request and a status of the enumeration stores the request with
    that status and with one more timeline event, which carries the
    status, the id and name of the caller, and as its message the message
    of the body when that is a non-empty text, and
    "Status updated to <status>" when the body has no message or an empty
    one. A status outside the enumeration (or none at all) is a
    [ValidationError], a well-formed id that no request has a
    [NotFoundError], and a caller who is no admin an [AuthorizationError].
    An id that is no ObjectId is not a [NotFoundError]: the [CastError] of
    [findById] is handed to [next]. None of the failures changes the
    collection. *)
Theorem updateStatus_spec now req db :
  let id := Req.params_id req in
  let caller := Req.user req in
  let newStatus := Body.status (Req.body req) in
  let message := Body.message (Req.body req) in
  (User.role caller = "admin" →
   ∀ r s, db !! id = Some r → well_formed r →
     newStatus = Some s → s ∈ Request.status_enum →
     ∃ r' text,
       Routes.patch_status now req db =
         (<[id := r']> db,
          json 200 true (Some "Request status updated successfully")
            (one_request id r'))
       ∧ Request.status r' = Some s
       ∧ Request.timeline r' =
           Request.timeline r ++
           [TimelineEvent.mk (Some s) (Some text)
              (Some (User.id caller)) (Some (User.fullName caller)) now]
       ∧ (∀ m, message = Some m → m ≠ "" → text = m)
       ∧ (message = None ∨ message = Some "" →
          text = "Status updated to " +:+ s))
  ∧ (User.role caller = "admin" →
     ∀ r, db !! id = Some r →
       (∀ s, newStatus = Some s → s ∉ Request.status_enum) →
       (Routes.patch_status now req db).1 = db
       ∧ Failure.of_response (Routes.patch_status now req db).2
           = Some Failure.ValidationError)
  ∧ (User.role caller = "admin" → db !! id = None →
     ObjectIds.rendered id = true →
       (Routes.patch_status now req db).1 = db
       ∧ Failure.of_response (Routes.patch_status now req db).2
           = Some Failure.NotFoundError)
  ∧ (User.role caller = "admin" → db !! id = None →
     ObjectIds.isValid id = false →
       Routes.patch_status now req db = (db, next (Mongoose.CastError id)))
  ∧ (User.role caller ≠ "admin" →
       (Routes.patch_status now req db).1 = db
       ∧ Failure.of_response (Routes.patch_status now req db).2
           = Some Failure.AuthorizationError).
Proof.
  simpl. unfold Routes.patch_status, Routes.admin_only.
  split; [|split; [|split; [|split]]].
  - intros Ha r s Hr [Hv _] Hs Hin. rewrite (admin_passes _ Ha).
    rewrite (updateRequestStatus_found _ _ _ _ Hr). rewrite Hs. simpl.
    rewrite validate_status_update; [|done|done|].
    + eexists _, _. split; [reflexivity|]. split; [by case_bool_decide|].
      split; [by case_bool_decide|]. split.
      * intros m -> Hm. by apply or_else_supplied.
      * apply or_else_missing.
    + rewrite validate_event_by, or_else_nonempty, andb_true_r by done.
      by apply truthy_Some, enum_member_nonempty.
  - intros Ha r Hr Hbad. rewrite (admin_passes _ Ha).
    rewrite (updateRequestStatus_found _ _ _ _ Hr).
    case_match eqn:Hdoc; [exfalso|done].
    apply validate_push_timeline in Hdoc as [Hst He].
    apply validate_set_status in Hst as [_ Hen].
    rewrite validate_event_by in He.
    destruct (Body.status (Req.body req)) as [s|]; [|done].
    apply enum_Some in Hen. by apply (Hbad s).
  - intros Ha Hr Hid. rewrite (admin_passes _ Ha).
    unfold Controller.updateRequestStatus.
    by rewrite (findById_None _ _ Hr), (rendered_isValid _ Hid).
  - intros Ha Hr Hid. rewrite (admin_passes _ Ha).
    unfold Controller.updateRequestStatus.
    by rewrite (findById_None _ _ Hr), Hid.
  - intros Ha. by rewrite (other_role_stopped _ Ha).
Qed.

Lemma sample_r1_well_formed : well_formed Sample.r1.
Proof. by_compute. Qed.

Lemma sample_db1_r1 : Sample.db1 !! Ids.r1 = Some Sample.r1.
Proof. by vm_compute. Qed.

Lemma updateStatus_spec_witness :
  (∃ r',
     Routes.patch_status 20
       (Sample.on Ids.r1 Sample.root
          (Audit.status_with_message "approved" "Approved by the registrar"))
       Sample.db1
     = (<[Ids.r1 := r']> Sample.db1,
        json 200 true (Some "Request status updated successfully")
          (one_request Ids.r1 r'))
     ∧ Request.status r' = Some "approved"
     ∧ Request.timeline r' =
         [seed 10;
          TimelineEvent.mk (Some "approved")
            (Some "Approved by the registrar") (Some Ids.root)
            (Some "Rhea Root") 20])
  ∧ (∃ r',
       Routes.patch_status 20
         (Sample.on Ids.r1 Sample.root (Sample.status_body "approved"))
         Sample.db1
       = (<[Ids.r1 := r']> Sample.db1,
          json 200 true (Some "Request status updated successfully")
            (one_request Ids.r1 r'))
       ∧ Request.timeline r' =
           [seed 10;
            TimelineEvent.mk (Some "approved")
              (Some "Status updated to approved") (Some Ids.root)
              (Some "Rhea Root") 20])
  ∧ Failure.of_response
      (Routes.patch_status 20
         (Sample.on Ids.r1 Sample.root (Sample.status_body "archived"))
         Sample.db1).2 = Some Failure.ValidationError
  ∧ Failure.of_response
      (Routes.patch_status 20
         (Sample.on Ids.unknown Sample.root (Sample.status_body "approved"))
         Sample.db1).2 = Some Failure.NotFoundError
  ∧ Routes.patch_status 20
      (Sample.on Ids.zz Sample.root (Sample.status_body "approved"))
      Sample.db1
    = (Sample.db1, next (Mongoose.CastError Ids.zz))
  ∧ Failure.of_response
      (Routes.patch_status 20
         (Sample.on Ids.r1 Sample.alice (Sample.status_body "approved"))
         Sample.db1).2 = Some Failure.AuthorizationError.
Proof.
  split; [|split; [|split; [|split; [|split]]]].
  - destruct (updateStatus_spec 20
                (Sample.on Ids.r1 Sample.root
                   (Audit.status_with_message "approved"
                      "Approved by the registrar"))
                Sample.db1) as (H & _).
    destruct (H eq_refl Sample.r1 "approved" sample_db1_r1
                sample_r1_well_formed eq_refl ltac:(by_compute))
      as (r' & text & H1 & H2 & H3 & H4 & _).
    exists r'. split; [exact H1|]. split; [exact H2|].
    rewrite H3, (H4 "Approved by the registrar" eq_refl ltac:(discriminate)).
    reflexivity.
  - destruct (updateStatus_spec 20
                (Sample.on Ids.r1 Sample.root (Sample.status_body "approved"))
                Sample.db1) as (H & _).
    destruct (H eq_refl Sample.r1 "approved" sample_db1_r1
                sample_r1_well_formed eq_refl ltac:(by_compute))
      as (r' & text & H1 & _ & H3 & _ & H5).
    exists r'. split; [exact H1|]. rewrite H3, (H5 (or_introl eq_refl)).
    reflexivity.
  - destruct (updateStatus_spec 20
                (Sample.on Ids.r1 Sample.root (Sample.status_body "archived"))
                Sample.db1) as (_ & H & _).
    apply (H eq_refl Sample.r1 sample_db1_r1).
    intros s [= <-]. by_compute.
  - destruct (updateStatus_spec 20
                (Sample.on Ids.unknown Sample.root
                   (Sample.status_body "approved"))
                Sample.db1) as (_ & _ & H & _).
    apply (H eq_refl); by vm_compute.
  - destruct (updateStatus_spec 20
                (Sample.on Ids.zz Sample.root (Sample.status_body "approved"))
                Sample.db1) as (_ & _ & _ & H & _).
    apply (H eq_refl); by vm_compute.
  - destruct (updateStatus_spec 20
                (Sample.on Ids.r1 Sample.alice (Sample.status_body "approved"))
                Sample.db1) as (_ & _ & _ & _ & H).
    apply H. by_compute.
Defined.

(** C3, as written, fails: the caller is an admin and no request has the
    id ["zz"], and yet the failure is not a [NotFoundError]: the id is no
    ObjectId, [findById] rejects with a [CastError], and the handler hands
    it to [next]. *)
Lemma updateStatus_malformed_id :
  User.role Sample.root = "admin"
  ∧ Sample.db1 !! Ids.zz = None
  ∧ Routes.patch_status 20
      (Sample.on Ids.zz Sample.root (Sample.status_body "approved"))
      Sample.db1
    = (Sample.db1, next (Mongoose.CastError "zz"))
  ∧ Failure.of_response
      (Routes.patch_status 20
         (Sample.on Ids.zz Sample.root (Sample.status_body "approved"))
         Sample.db1).2
    ≠ Some Failure.NotFoundError.
Proof.
  assert (Hr : Sample.db1 !! Ids.zz = None) by (by vm_compute).
  split; [reflexivity|]. split; [exact Hr|].
  unfold Routes.patch_status, Routes.admin_only.
  rewrite admin_passes by reflexivity.
  rewrite (updateRequestStatus_cast_error 20
             (Sample.on Ids.zz Sample.root (Sample.status_body "approved"))
             Sample.db1 Hr) by reflexivity.
  split; [reflexivity|discriminate].
Qed.

(** ** Rejecting *)

(** C5, as amended. [rejectRequest] on a stored request and a non-empty
    reason stores the request with status [rejected], with the reason as
    [rejectionReason], and with one more timeline event
    [{rejected, "Request rejected: <reason>", caller}]; an admin who then
    reads the request by its id gets exactly that request. An empty or
    missing reason is a [ValidationError] and, the reason given, a
    well-formed id that no request has is a [NotFoundError]. An id that is
    no ObjectId is not a [NotFoundError]: the [CastError] of [findById] is
    handed to [next]. No failure changes the collection. The route lets
    every admin through to the handler. *)
Theorem rejectRequest_spec now req db :
  let id := Req.params_id req in
  let caller := Req.user req in
  (∀ r reason, db !! id = Some r → well_formed r →
     Body.reason (Req.body req) = Some reason → reason ≠ "" →
     ∃ r',
       Controller.rejectRequest now req db =
         (<[id := r']> db,
          json 200 true (Some "Request rejected successfully")
            (one_request id r'))
       ∧ Request.status r' = Some "rejected"
       ∧ Request.rejectionReason r' = Some reason
       ∧ Request.timeline r' =
           Request.timeline r ++
           [TimelineEvent.mk (Some "rejected")
              (Some ("Request rejected: " +:+ reason))
              (Some (User.id caller)) (Some (User.fullName caller)) now]
       ∧ ∀ reader, Req.params_id reader = id →
           User.role (Req.user reader) = "admin" →
           Routes.get_request reader (<[id := r']> db) =
             (<[id := r']> db, json 200 true None (one_request id r')))
  ∧ (Js.truthy (Body.reason (Req.body req)) = false →
       (Controller.rejectRequest now req db).1 = db
       ∧ Failure.of_response (Controller.rejectRequest now req db).2
           = Some Failure.ValidationError)
  ∧ (Js.truthy (Body.reason (Req.body req)) = true → db !! id = None →
     ObjectIds.rendered id = true →
       (Controller.rejectRequest now req db).1 = db
       ∧ Failure.of_response (Controller.rejectRequest now req db).2
           = Some Failure.NotFoundError)
  ∧ (Js.truthy (Body.reason (Req.body req)) = true → db !! id = None →
     ObjectIds.isValid id = false →
       Controller.rejectRequest now req db
         = (db, next (Mongoose.CastError id)))
  ∧ (User.role caller = "admin" →
       Routes.post_reject now req db = Controller.rejectRequest now req db).
Proof.
  simpl. split; [|split; [|split; [|split]]].
  - intros r reason Hr [Hv _] Hreason Hne.
    assert (Ht : Js.truthy (Body.reason (Req.body req)) = true).
    { rewrite Hreason. by apply truthy_Some. }
    rewrite (rejectRequest_found _ _ _ _ Hr Ht). rewrite Hreason. simpl.
    set (e := TimelineEvent.mk _ _ _ _ _).
    assert (Hdoc : Request.validate
                     (Request.push_timeline e
                        (Request.set_rejectionReason (Some reason)
                           (Request.set_status (Some "rejected") r))) = []).
    { apply validate_push_timeline. split; [|done].
      rewrite validate_set_rejectionReason. apply validate_set_status.
      split; [by apply validate_set_status_None | done]. }
    rewrite Hdoc. eexists. split; [reflexivity|]. do 3 (split; [done|]).
    intros reader Hid Hadmin.
    unfold Routes.get_request, Controller.getRequestById.
    rewrite Hid, (findById_Some _ _ _ (lookup_insert_eq _ _ _)).
    rewrite (bool_decide_false (User.role _ ≠ _)) by (by intros []).
    by rewrite andb_false_r.
  - intros Ht. unfold Controller.rejectRequest. by rewrite Ht.
  - intros Ht Hr Hid. unfold Controller.rejectRequest.
    by rewrite Ht, (findById_None _ _ Hr), (rendered_isValid _ Hid).
  - intros Ht Hr Hid. unfold Controller.rejectRequest.
    by rewrite Ht, (findById_None _ _ Hr), Hid.
  - intros Ha. unfold Routes.post_reject, Routes.admin_only.
    by rewrite (admin_passes _ Ha).
Qed.

Lemma rejectRequest_spec_witness :
  (∃ r',
     Controller.rejectRequest 20
       (Sample.on Ids.r1 Sample.root (Sample.reason_body "no fee paid"))
       Sample.db1
     = (<[Ids.r1 := r']> Sample.db1,
        json 200 true (Some "Request rejected successfully")
          (one_request Ids.r1 r'))
     ∧ Request.status r' = Some "rejected"
     ∧ Request.rejectionReason r' = Some "no fee paid"
     ∧ Request.timeline r' =
         [seed 10;
          TimelineEvent.mk (Some "rejected")
            (Some "Request rejected: no fee paid") (Some Ids.root)
            (Some "Rhea Root") 20]
     ∧ Routes.get_request (Sample.on Ids.r1 Sample.root Sample.no_body)
         (<[Ids.r1 := r']> Sample.db1)
       = (<[Ids.r1 := r']> Sample.db1,
          json 200 true None (one_request Ids.r1 r')))
  ∧ Failure.of_response
      (Controller.rejectRequest 20
         (Sample.on Ids.r1 Sample.root (Sample.reason_body "")) Sample.db1).2
    = Some Failure.ValidationError
  ∧ Failure.of_response
      (Controller.rejectRequest 20
         (Sample.on Ids.unknown Sample.root (Sample.reason_body "no fee paid"))
         Sample.db1).2
    = Some Failure.NotFoundError
  ∧ Controller.rejectRequest 20
      (Sample.on Ids.zz Sample.root (Sample.reason_body "no fee paid"))
      Sample.db1
    = (Sample.db1, next (Mongoose.CastError Ids.zz)).
Proof.
  split; [|split; [|split]].
  - destruct (rejectRequest_spec 20
                (Sample.on Ids.r1 Sample.root (Sample.reason_body "no fee paid"))
                Sample.db1) as (H & _).
    destruct (H Sample.r1 "no fee paid" sample_db1_r1 sample_r1_well_formed
                eq_refl ltac:(discriminate)) as (r' & H1 & H2 & H3 & H4 & H5).
    exists r'. do 4 (split; [assumption|]). by apply H5.
  - destruct (rejectRequest_spec 20
                (Sample.on Ids.r1 Sample.root (Sample.reason_body ""))
                Sample.db1) as (_ & H & _).
    by apply H.
  - destruct (rejectRequest_spec 20
                (Sample.on Ids.unknown Sample.root
                   (Sample.reason_body "no fee paid"))
                Sample.db1) as (_ & _ & H & _).
    apply H; by vm_compute.
  - destruct (rejectRequest_spec 20
                (Sample.on Ids.zz Sample.root (Sample.reason_body "no fee paid"))
                Sample.db1) as (_ & _ & _ & H & _).
    apply H; by vm_compute.
Defined.

(** C5, as written, fails: the reason is given and no request has the id
    ["zz"], and yet the failure is not a [NotFoundError]: the id is no
    ObjectId, [findById] rejects with a [CastError], and the handler hands
    it to [next]. *)
Lemma rejectRequest_malformed_id :
  Sample.db1 !! Ids.zz = None
  ∧ Controller.rejectRequest 20
      (Sample.on Ids.zz Sample.root (Sample.reason_body "no fee paid"))
      Sample.db1
    = (Sample.db1, next (Mongoose.CastError "zz"))
  ∧ Failure.of_response
      (Controller.rejectRequest 20
         (Sample.on Ids.zz Sample.root (Sample.reason_body "no fee paid"))
         Sample.db1).2
    ≠ Some Failure.NotFoundError.
Proof.
  assert (Hr : Sample.db1 !! Ids.zz = None) by (by vm_compute).
  split; [exact Hr|].
  rewrite (rejectRequest_cast_error 20
             (Sample.on Ids.zz Sample.root (Sample.reason_body "no fee paid"))
             Sample.db1 eq_refl Hr) by reflexivity.
  split; [reflexivity|discriminate].
Qed.

(** ** Remarks *)

(** C6. [addRemark] on a stored request and a non-empty remark stores the
    request with exactly two additions and a fresh [updatedAt]: the entry
    [{admin, adminName, remark, timestamp}] at the end of [adminRemarks],
    and at the end of [timeline] an event with the status the request has,
    the message "Admin added a remark: <remark>" and the caller's id and
    name. The status is the one it was. An empty or missing remark is a
    [ValidationError] and changes nothing. The route lets every admin
    through to the handler. *)
Theorem addRemark_spec now req db :
  let id := Req.params_id req in
  let caller := Req.user req in
  (∀ r text, db !! id = Some r → well_formed r →
     Body.remark (Req.body req) = Some text → text ≠ "" →
     ∃ r',
       Controller.addRemark now req db =
         (<[id := r']> db,
          json 200 true (Some "Remark added successfully")
            (one_request id r'))
       ∧ r' =
           Request.set_updatedAt now
             (Request.push_timeline
                (TimelineEvent.mk (Request.status r)
                   (Some ("Admin added a remark: " +:+ text))
                   (Some (User.id caller)) (Some (User.fullName caller)) now)
                (Request.push_adminRemarks
                   (AdminRemark.mk (User.id caller) (User.fullName caller)
                      (Some text) now)
                   r))
       ∧ Request.status r' = Request.status r
       ∧ Request.adminRemarks r' =
           Request.adminRemarks r ++
           [AdminRemark.mk (User.id caller) (User.fullName caller)
              (Some text) now]
       ∧ Request.timeline r' =
           Request.timeline r ++
           [TimelineEvent.mk (Request.status r)
              (Some ("Admin added a remark: " +:+ text))
              (Some (User.id caller)) (Some (User.fullName caller)) now])
  ∧ (Js.truthy (Body.remark (Req.body req)) = false →
       (Controller.addRemark now req db).1 = db
       ∧ Failure.of_response (Controller.addRemark now req db).2
           = Some Failure.ValidationError)
  ∧ (User.role caller = "admin" →
       Routes.post_remarks now req db = Controller.addRemark now req db).
Proof.
  simpl. split; [|split].
  - intros r text Hr [Hv [st Hst]] Hremark Hne.
    assert (Ht : Js.truthy (Body.remark (Req.body req)) = true).
    { rewrite Hremark. by apply truthy_Some. }
    rewrite (addRemark_found _ _ _ _ Hr Ht). rewrite Hremark. simpl.
    set (e := TimelineEvent.mk _ _ _ _ _).
    set (a := AdminRemark.mk _ _ _ _).
    assert (Hdoc : Request.validate
                     (Request.push_timeline e (Request.push_adminRemarks a r))
                   = []).
    { apply validate_push_timeline. split; [done|].
      unfold e. rewrite validate_event_by, Hst. simpl. rewrite andb_true_r.
      apply truthy_Some, enum_member_nonempty, enum_Some.
      rewrite <- Hst. by apply validate_nil in Hv as (_ & _ & _ & _ & ? & _). }
    rewrite Hdoc. by eexists.
  - intros Ht. unfold Controller.addRemark. by rewrite Ht.
  - intros Ha. unfold Routes.post_remarks, Routes.admin_only.
    by rewrite (admin_passes _ Ha).
Qed.

Lemma addRemark_spec_witness :
  (∃ r',
     Controller.addRemark 20
       (Sample.on Ids.r1 Sample.root (Sample.remark_body "fee receipt missing"))
       Sample.db1
     = (<[Ids.r1 := r']> Sample.db1,
        json 200 true (Some "Remark added successfully") (one_request Ids.r1 r'))
     ∧ Request.status r' = Some "submitted"
     ∧ Request.adminRemarks r' =
         [AdminRemark.mk Ids.root "Rhea Root" (Some "fee receipt missing") 20]
     ∧ Request.timeline r' =
         [seed 10;
          TimelineEvent.mk (Some "submitted")
            (Some "Admin added a remark: fee receipt missing") (Some Ids.root)
            (Some "Rhea Root") 20])
  ∧ Failure.of_response
      (Controller.addRemark 20
         (Sample.on Ids.r1 Sample.root Sample.no_body) Sample.db1).2
    = Some Failure.ValidationError.
Proof.
  split.
  - destruct (addRemark_spec 20
                (Sample.on Ids.r1 Sample.root
                   (Sample.remark_body "fee receipt missing"))
                Sample.db1) as (H & _).
    destruct (H Sample.r1 "fee receipt missing" sample_db1_r1
                sample_r1_well_formed eq_refl ltac:(discriminate))
      as (r' & H1 & _ & H3 & H4 & H5).
    exists r'. by do 3 (split; [assumption|]).
  - destruct (addRemark_spec 20
                (Sample.on Ids.r1 Sample.root Sample.no_body) Sample.db1)
      as (_ & H & _).
    by apply H.
Defined.

(** ** Creating *)

Lemma createRequest_valid oid now req db :
  db !! oid = None →
  let b := Req.body req in
  let doc :=
    Model.new_document now
      (Model.mk_fields (User.id (Req.user req)) (Body.requestType b)
         (Body.title b) (Body.description b) (Body.correctionDetails b)
         (Body.uploadedDocuments b)
         (Some (Js.or_else (Body.priority b) "medium"))) in
  Request.validate doc = [] →
  Controller.createRequest oid now req db =
    (<[oid := Request.pre_save true now doc]> db,
     json 201 true (Some "Request submitted successfully")
       (one_request oid (Request.pre_save true now doc))).
Proof.
  simpl. intros Hfresh Hv.
  unfold Controller.createRequest, Model.create.
  rewrite (save_valid _ _ _ _ _ Hv). simpl.
  rewrite bool_decide_false; [done|]. rewrite Hfresh. by intros [? ?].
Qed.

(** C2, as amended. For a recognised request type, a non-empty title and
    description and a priority that is left out or is one of the four
    known, under an id that is not taken, [createRequest] stores and sends
    a request with status [submitted], with the priority given or else
    [medium], and with a timeline of exactly one event: status
    [submitted], message "Request submitted successfully", performed by no
    one. *)
Theorem createRequest_spec oid now req db :
  db !! oid = None →
  valid_creation_input (Req.body req) →
  (∀ p, Body.priority (Req.body req) = Some p → p ≠ "" →
        p ∈ Request.priority_enum) →
  created oid now req db.
Proof.
  intros Hfresh ((ty & Hty & Hin) & Htitle & Hdesc) Hprio.
  unfold created. eexists. split; [apply createRequest_valid; [done|]|done].
  apply validate_nil. simpl. rewrite Hty.
  split; [|split; [|split; [|split; [|split; [|split]]]]]; try done.
  - apply truthy_Some. intros ->. apply (bool_decide_pack _) in Hin.
    by vm_compute in Hin.
  - by apply bool_decide_eq_true.
  - apply bool_decide_eq_true.
    destruct (Body.priority (Req.body req)) as [p|] eqn:Hp; simpl;
      [|by_compute].
    destruct (String.eqb_spec p ""); [by_compute|]. by apply Hprio.
Qed.

Lemma createRequest_spec_witness :
  created Ids.r1 10 (Sample.on "" Sample.alice Sample.transcript) ∅.
Proof.
  apply createRequest_spec.
  - by vm_compute.
  - split; [|by split]. exists "transcript". split; [done|by_compute].
  - intros p Hp. discriminate Hp.
Defined.

(** C2, as written, fails: the three conditions it names are met, the id is
    free, and yet a priority outside the schema's [enum] makes the save
    reject the document, so that no request is created. *)
Lemma createRequest_unknown_priority :
  valid_creation_input Sample.transcript_asap
  ∧ Controller.createRequest Ids.r1 10
      (Sample.on "" Sample.alice Sample.transcript_asap) ∅
    = (∅, next (Mongoose.ValidationError ["priority"]))
  ∧ ¬ created Ids.r1 10 (Sample.on "" Sample.alice Sample.transcript_asap) ∅.
Proof.
  assert (Heq : Controller.createRequest Ids.r1 10
                  (Sample.on "" Sample.alice Sample.transcript_asap) ∅
                = (∅, next (Mongoose.ValidationError ["priority"])))
    by (vm_compute; reflexivity).
  split; [|split].
  - split; [|by split]. exists "transcript". split; [done|by_compute].
  - exact Heq.
  - intros (r & H & _). rewrite Heq in H.
    apply (f_equal snd) in H. discriminate H.
Qed.

(** ** One call

    A call either fails and leaves the collection as it was, or succeeds
    and writes one document under its target: a new one, whose timeline is
    the seed alone, or the stored one with one timeline event more. *)

Lemma validate_event_status e :
  Request.validate_event e = true → is_Some (TimelineEvent.status e).
Proof.
  unfold Request.validate_event, Request.required.
  intros [H _]%andb_true_iff. apply truthy_is_Some in H as (s & -> & _).
  by eexists.
Qed.

Lemma validate_pre_save isNew now r :
  Request.validate r = [] → Request.validate (Request.pre_save isNew now r) = [].
Proof.
  intros Hv. unfold Request.pre_save. rewrite validate_set_updatedAt.
  destruct isNew; [|done]. by apply validate_push_timeline.
Qed.

Lemma step_cases c db :
  ((step c db).1 = db ∧ succeeded (step c db).2 = false)
  ∨ ∃ r',
      (step c db).1 = <[target c := r']> db
      ∧ succeeded (step c db).2 = true
      ∧ well_formed r'
      ∧ match db !! target c with
        | None =>
            (∃ now, Request.timeline r' = [seed now])
            ∧ Request.adminRemarks r' = []
            ∧ Request.status r' = Some "submitted"
            ∧ Request.completedAt r' = None
        | Some r =>
            ∃ e remarks,
              Request.timeline r' = Request.timeline r ++ [e]
              ∧ is_Some (TimelineEvent.performedBy e)
              ∧ Request.adminRemarks r' = Request.adminRemarks r ++ remarks
              ∧ ((Request.status r' = Some "completed"
                  ∧ is_Some (Request.completedAt r'))
                 ∨ (Request.completedAt r' = Request.completedAt r
                    ∧ (Request.status r' = Request.status r
                       ∨ Request.status r' ≠ Some "completed")))
        end.
Proof.
  destruct c as [oid now req | now req | now req | now req]; simpl.
  - unfold Controller.createRequest, Model.create, Collection.save.
    destruct (Request.validate _) eqn:Hv; [|by left]. simpl.
    case_bool_decide as Hfresh; [by left|]. right.
    apply eq_None_not_Some in Hfresh. rewrite Hfresh.
    eexists. split; [done|]. split; [done|]. split; [|by eauto].
    split; [|by eexists]. by apply validate_pre_save.
  - destruct (db !! Req.params_id req) as [r|] eqn:Hr.
    + rewrite (updateRequestStatus_found _ _ _ _ Hr).
      destruct (Request.validate _) eqn:Hv; [|by left]. right.
      eexists. split; [done|]. split; [done|].
      apply validate_push_timeline in Hv as Hv'. destruct Hv' as [_ He].
      split.
      { split; [by case_bool_decide|].
        apply validate_event_status in He. by case_bool_decide. }
      eexists _, []. rewrite app_nil_r.
      case_bool_decide as Hc; simpl.
      * repeat split; eauto.
      * repeat split; eauto.
    + left. unfold Controller.updateRequestStatus.
      rewrite (findById_None _ _ Hr). by destruct (ObjectIds.isValid _).
  - destruct (Js.truthy (Body.remark (Req.body req))) eqn:Ht;
      [|left; unfold Controller.addRemark; by rewrite Ht].
    destruct (db !! Req.params_id req) as [r|] eqn:Hr.
    + rewrite (addRemark_found _ _ _ _ Hr Ht).
      destruct (Request.validate _) eqn:Hv; [|by left]. right.
      eexists. split; [done|]. split; [done|].
      apply validate_push_timeline in Hv as Hv'. destruct Hv' as [_ He].
      split; [split; [done|by apply validate_event_status in He]|].
      eexists _, [_]. repeat split; eauto.
    + left. unfold Controller.addRemark.
      rewrite Ht, (findById_None _ _ Hr). by destruct (ObjectIds.isValid _).
  - destruct (Js.truthy (Body.reason (Req.body req))) eqn:Ht;
      [|left; unfold Controller.rejectRequest; by rewrite Ht].
    destruct (db !! Req.params_id req) as [r|] eqn:Hr.
    + rewrite (rejectRequest_found _ _ _ _ Hr Ht).
      destruct (Request.validate _) eqn:Hv; [|by left]. right.
      eexists. split; [done|]. split; [done|].
      split; [split; [done|by eexists]|].
      eexists _, []. rewrite app_nil_r. repeat split; eauto.
    + left. unfold Controller.rejectRequest.
      rewrite Ht, (findById_None _ _ Hr). by destruct (ObjectIds.isValid _).
Qed.

(** What the call stores, handler by handler. *)
Lemma step_effect c db :
  ((step c db).1 = db ∧ succeeded (step c db).2 = false)
  ∨ ∃ r',
      (step c db).1 = <[target c := r']> db
      ∧ (∃ code message,
           (step c db).2 = json code true message (one_request (target c) r'))
      ∧ succeeded (step c db).2 = true
      ∧ well_formed r'
      ∧ match c with
        | Create oid now req => db !! oid = None ∧ r' = created_doc now req
        | UpdateStatus now req =>
            ∃ r, db !! Req.params_id req = Some r ∧ r' = updated_doc now req r
        | AddRemark now req =>
            ∃ r, db !! Req.params_id req = Some r
              ∧ Js.truthy (Body.remark (Req.body req)) = true
              ∧ r' = remarked_doc now req r
        | Reject now req =>
            ∃ r, db !! Req.params_id req = Some r
              ∧ Js.truthy (Body.reason (Req.body req)) = true
              ∧ r' = rejected_doc now req r
        end.
Proof.
  destruct c as [oid now req | now req | now req | now req]; simpl.
  - unfold Controller.createRequest, Model.create, Collection.save.
    destruct (Request.validate _) eqn:Hv; [|by left]. simpl.
    case_bool_decide as Hfresh; [by left|]. right.
    apply eq_None_not_Some in Hfresh.
    eexists. split; [done|]. split; [by eauto|]. split; [done|].
    split; [|done]. split; [by apply validate_pre_save|by eexists].
  - destruct (db !! Req.params_id req) as [r|] eqn:Hr.
    + rewrite (updateRequestStatus_found _ _ _ _ Hr).
      destruct (Request.validate _) eqn:Hv; [|by left]. right.
      exists (updated_doc now req r).
      split; [done|]. split; [by eauto|]. split; [done|].
      split; [|by eauto].
      apply validate_push_timeline in Hv as Hv'. destruct Hv' as [_ He].
      apply validate_event_status in He.
      unfold updated_doc. split; by case_bool_decide.
    + left. unfold Controller.updateRequestStatus.
      rewrite (findById_None _ _ Hr). by destruct (ObjectIds.isValid _).
  - destruct (Js.truthy (Body.remark (Req.body req))) eqn:Ht;
      [|left; unfold Controller.addRemark; by rewrite Ht].
    destruct (db !! Req.params_id req) as [r|] eqn:Hr.
    + rewrite (addRemark_found _ _ _ _ Hr Ht).
      destruct (Request.validate _) eqn:Hv; [|by left]. right.
      exists (remarked_doc now req r).
      split; [done|]. split; [by eauto|]. split; [done|].
      split; [|by eauto].
      apply validate_push_timeline in Hv as Hv'. destruct Hv' as [_ He].
      by apply validate_event_status in He.
    + left. unfold Controller.addRemark.
      rewrite Ht, (findById_None _ _ Hr). by destruct (ObjectIds.isValid _).
  - destruct (Js.truthy (Body.reason (Req.body req))) eqn:Ht;
      [|left; unfold Controller.rejectRequest; by rewrite Ht].
    destruct (db !! Req.params_id req) as [r|] eqn:Hr.
    + rewrite (rejectRequest_found _ _ _ _ Hr Ht).
      destruct (Request.validate _) eqn:Hv; [|by left]. right.
      exists (rejected_doc now req r).
      split; [done|]. split; [by eauto|]. split; [done|].
      split; [|by eauto]. split; [done|by eexists].
    + left. unfold Controller.rejectRequest.
      rewrite Ht, (findById_None _ _ Hr). by destruct (ObjectIds.isValid _).
Qed.

(** How the document under [id] after a call relates to the one before. *)
Lemma step_lookup c db id r' :
  (step c db).1 !! id = Some r' →
  db !! id = Some r'
  ∨ (target c = id ∧ succeeded (step c db).2 = true ∧ well_formed r'
     ∧ match c with
       | Create oid now req => db !! id = None ∧ r' = created_doc now req
       | UpdateStatus now req =>
           ∃ r, db !! id = Some r ∧ r' = updated_doc now req r
       | AddRemark now req =>
           ∃ r, db !! id = Some r
             ∧ Js.truthy (Body.remark (Req.body req)) = true
             ∧ r' = remarked_doc now req r
       | Reject now req =>
           ∃ r, db !! id = Some r
             ∧ Js.truthy (Body.reason (Req.body req)) = true
             ∧ r' = rejected_doc now req r
       end).
Proof.
  intros Hr'.
  destruct (step_effect c db) as [[Hdb _] | (r1 & Hdb & _ & Hs & Hwf & Hm)];
    rewrite Hdb in Hr'; [by left|].
  destruct (decide (target c = id)) as [Hid|Hne];
    [|rewrite lookup_insert_ne in Hr' by done; by left].
  rewrite Hid, lookup_insert_eq in Hr'. injection Hr' as <-.
  right. split; [done|]. split; [done|]. split; [done|].
  destruct c; simpl in Hid; by rewrite <- Hid.
Qed.

(** ** Sequences of calls *)

Lemma run_cons c calls db :
  run (c :: calls) db =
    ((run calls (step c db).1).1,
     (c, (step c db).2) :: (run calls (step c db).1).2).
Proof.
  simpl. destruct (step c db) as [db' resp]. simpl.
  by destruct (run calls db').
Qed.

Lemma step_timeline c db id r :
  db !! id = Some r →
  ∃ r' new remarks,
    (step c db).1 !! id = Some r'
    ∧ Request.timeline r' = Request.timeline r ++ new
    ∧ Request.adminRemarks r' = Request.adminRemarks r ++ remarks
    ∧ length new =
        if bool_decide (target c = id) && succeeded (step c db).2
        then 1%nat else 0%nat.
Proof.
  intros Hr.
  destruct (step_cases c db) as [[Hdb Hs] | (r' & Hdb & Hs & _ & Hm)].
  - exists r, [], []. rewrite Hdb, Hs, andb_false_r, !app_nil_r. done.
  - rewrite Hdb, Hs, andb_true_r. case_bool_decide as Ht.
    + rewrite Ht in Hm |- *. rewrite Hr in Hm.
      destruct Hm as (e & remarks & Htl & _ & Hrem & _).
      exists r', [e], remarks. by rewrite lookup_insert_eq.
    + exists r, [], []. rewrite lookup_insert_ne, !app_nil_r by done. done.
Qed.



(** ** Reachable collections *)

Lemma step_keeps c db id :
  is_Some (db !! id) → is_Some ((step c db).1 !! id).
Proof.
  intros [r Hr].
  destruct (step_timeline c db id r Hr) as (r' & _ & _ & H & _). by eexists.
Qed.


(** Every collection the handlers can produce holds well-formed documents
    only. *)
Lemma reaches_consistent past db : reaches past db → consistent db.
Proof.
  induction 1 as [|past db c _ IH]; [apply map_Forall_empty|].
  destruct (step_cases c db) as [[-> _] | (r' & -> & _ & Hwf & _)]; [done|].
  by apply map_Forall_insert_2.
Qed.

Lemma reaches_well_formed past db id r :
  reaches past db → db !! id = Some r → well_formed r.
Proof. intros Hreach Hr. by apply (reaches_consistent _ _ Hreach id r). Qed.

Lemma reaches_has_status past db :
  reaches past db → map_Forall (fun _ r => is_Some (Request.status r)) db.
Proof.
  intros Hreach id r Hr. by destruct (reaches_well_formed _ _ _ _ Hreach Hr).
Qed.










(** ** The completion date *)






Lemma sample_reaches_db2 : reaches [Sample.db1; ∅] Sample.db2.
Proof.
  exact (reaches_step [∅] Sample.db1 Sample.complete
           (reaches_step [] ∅
              (Create Ids.r1 10 (Sample.on "" Sample.alice Sample.transcript))
              reaches_empty)).
Qed.


(** ** Statistics *)

Section groups.

Implicit Types (k : option string) (groups : list (option string * nat)).
Implicit Types (l : list (ObjectId * Request.t)).

Lemma bump_as_map k groups :
  as_map (Collection.bump k groups) =
    <[k := S (default 0%nat (as_map groups !! k))]> (as_map groups).
Proof.
  unfold as_map. induction groups as [|[k' n] groups IH]; simpl; [done|].
  destruct (decide (k = k')) as [<-|Hne]; simpl.
  - by rewrite lookup_insert_eq, insert_insert_eq.
  - rewrite IH, lookup_insert_ne by done. by apply insert_insert_ne.
Qed.

Lemma bump_keys k groups x :
  x ∈ (Collection.bump k groups).*1 → x = k ∨ x ∈ groups.*1.
Proof.
  induction groups as [|[k' n] groups IH]; simpl.
  - intros ?%list_elem_of_singleton. by left.
  - destruct (decide (k = k')); simpl; rewrite !elem_of_cons; [tauto|].
    intros [?|?%IH]; tauto.
Qed.

Lemma bump_NoDup k groups :
  NoDup groups.*1 → NoDup (Collection.bump k groups).*1.
Proof.
  induction groups as [|[k' n] groups IH]; simpl.
  - intros _. apply NoDup_singleton.
  - intros [Hnotin Hnd]%NoDup_cons.
    destruct (decide (k = k')) as [<-|Hne]; simpl.
    + by apply NoDup_cons.
    + apply NoDup_cons. split; [|by apply IH].
      intros Hin. apply bump_keys in Hin as [?|?]; [congruence|done].
Qed.

Lemma fold_bump_NoDup l groups :
  NoDup groups.*1 →
  NoDup (foldl (fun groups d => Collection.bump (Request.status d.2) groups)
           groups l).*1.
Proof.
  revert groups. induction l as [|d l IH]; intros groups Hnd; simpl; [done|].
  by apply IH, bump_NoDup.
Qed.

Lemma fold_bump_as_map l groups k :
  as_map (foldl (fun groups d => Collection.bump (Request.status d.2) groups)
            groups l) !! k =
    match occurrences k l with
    | O => as_map groups !! k
    | S _ => Some (default 0%nat (as_map groups !! k) + occurrences k l)%nat
    end.
Proof.
  revert groups. induction l as [|d l IH]; intros groups; [done|].
  simpl foldl. rewrite IH, bump_as_map. unfold occurrences. simpl.
  destruct (decide (Request.status d.2 = k)) as [Hk|Hk].
  - rewrite (bool_decide_true _ Hk), Hk, lookup_insert_eq. simpl.
    destruct (length _); f_equal; lia.
  - rewrite (bool_decide_false _ Hk), lookup_insert_ne by done. done.
Qed.

Lemma group_by_status_lookup l k :
  as_map (Collection.group_by_status l) !! k =
    match occurrences k l with
    | O => None
    | S n => Some (S n)
    end.
Proof.
  unfold Collection.group_by_status. rewrite fold_bump_as_map.
  unfold as_map. simpl. rewrite lookup_empty. by destruct (occurrences k l).
Qed.

(** Writing the groups into the [byStatus] object, when each group has a
    status and no status has two groups. *)
Lemma fold_insert_lookup groups (o : gmap string nat) s :
  NoDup groups.*1 → None ∉ groups.*1 →
  foldl (fun (o : gmap string nat) stat =>
           <[Controller.property_key stat.1 := stat.2]> o) o groups !! s =
    match as_map groups !! Some s with
    | Some n => Some n
    | None => o !! s
    end.
Proof.
  unfold as_map. revert o.
  induction groups as [|[k n] groups IH]; intros o Hnd Hnone; simpl.
  - by rewrite lookup_empty.
  - apply NoDup_cons in Hnd as [Hnotin Hnd].
    apply not_elem_of_cons in Hnone as [Hk Hnone].
    rewrite IH by done. destruct k as [s'|]; [|done]. simpl.
    destruct (decide (s' = s)) as [->|Hne].
    + rewrite lookup_insert_eq.
      by rewrite (not_elem_of_list_to_map_1 _ _ Hnotin), lookup_insert_eq.
    + rewrite (lookup_insert_ne (list_to_map groups)) by congruence.
      destruct (list_to_map groups !! Some s); [done|].
      by rewrite lookup_insert_ne.
Qed.

Lemma group_by_status_no_None l :
  Forall (fun d => is_Some (Request.status d.2)) l →
  None ∉ (Collection.group_by_status l).*1.
Proof.
  intros Hall Hin.
  assert (as_map (Collection.group_by_status l) !! None = None) as Hlook.
  { rewrite group_by_status_lookup. unfold occurrences.
    replace (List.filter _ l) with (@nil (ObjectId * Request.t)); [done|].
    clear Hin. induction Hall as [|d l [st Hd] _ IH]; [done|]. simpl.
    rewrite bool_decide_false by congruence. done. }
  by apply not_elem_of_list_to_map_2 in Hlook.
Qed.

(** C9. [getRequestStats] sends [total], the number of stored requests, and
    [byStatus], which maps a status to the number of stored requests that
    have it and has no entry for a status that none has. Every stored
    request is taken to have a status, as the schema's default sees to. *)
Theorem getRequestStats_spec req db :
  map_Forall (fun _ r => is_Some (Request.status r)) db →
  ∃ stats,
    Controller.getRequestStats req db
      = (db, json 200 true None (the_stats stats))
    ∧ Stats.total stats = size db
    ∧ ∀ s, Stats.byStatus stats !! s =
        if decide (count_status s db = 0%nat) then None
        else Some (count_status s db).
Proof.
  intros Hst. unfold Controller.getRequestStats. eexists. split; [done|].
  split; [apply length_map_to_list|]. intros s. simpl.
  rewrite fold_insert_lookup.
  - rewrite group_by_status_lookup, lookup_empty.
    unfold count_status, Collection.docs.
    by destruct (occurrences (Some s) (map_to_list db)).
  - by apply fold_bump_NoDup, NoDup_nil.
  - apply group_by_status_no_None. apply Forall_forall.
    intros [id r] Hin%elem_of_map_to_list. by apply (Hst id r).
Qed.

End groups.

Lemma getRequestStats_spec_witness :
  ∃ stats,
    Controller.getRequestStats (Sample.on "" Sample.root Sample.no_body)
      Sample.db5
      = (Sample.db5, json 200 true None (the_stats stats))
    ∧ Stats.total stats = 5%nat
    ∧ Stats.byStatus stats !! "submitted" = Some 3%nat
    ∧ Stats.byStatus stats !! "completed" = Some 2%nat
    ∧ Stats.byStatus stats !! "rejected" = None.
Proof.
  destruct (getRequestStats_spec (Sample.on "" Sample.root Sample.no_body)
              Sample.db5) as (stats & H1 & H2 & H3).
  { by_compute. }
  exists stats. split; [exact H1|].
  split; [rewrite H2; vm_compute; reflexivity|].
  rewrite !H3. vm_compute. repeat split; reflexivity.
Defined.

(** The example of the specification: three submitted and two completed
    requests give [{total: 5, byStatus: {submitted: 3, completed: 2}}]. *)
Example stats_three_and_two :
  (Controller.getRequestStats (Sample.on "" Sample.root Sample.no_body)
     Sample.db5).2
  = json 200 true None
      (the_stats (Stats.mk 5 {[ "submitted" := 3%nat; "completed" := 2%nat ]})).
Proof. by vm_compute. Qed.

(** ** Listing *)

#[local] Instance newer_first_total : Total Collection.newer_first.
Proof. intros a b. unfold Collection.newer_first. lia. Qed.

#[local] Instance newer_first_trans : Transitive Collection.newer_first.
Proof. intros a b c. unfold Collection.newer_first. lia. Qed.

Lemma eq_cond_exact option_ field :
  Filter.eq_cond (if Js.truthy option_ then option_ else None) field
    = exact option_ field.
Proof.
  unfold exact. destruct (Js.truthy option_) eqn:Ht; [|done].
  apply truthy_is_Some in Ht as (v & -> & _). simpl.
  apply bool_decide_ext. split; congruence.
Qed.

(** The search condition of the query object does what [searched] says, as
    soon as the engine compiles the search string. *)
Lemma or_cond_searched (regex : Regex.engine) q s matcher r :
  Query.search q = Some s → s ≠ "" → regex s "i" = Some matcher →
  Filter.or_cond (Some matcher) r = searched (regex_found regex) q r.
Proof.
  intros Hs Hne Hre. unfold searched, regex_found. rewrite Hs, Hre.
  by destruct (String.eqb_spec s "").
Qed.

Lemma searched_unset (regex : Regex.engine) q r :
  Js.truthy (Query.search q) = false →
  searched (regex_found regex) q r = true.
Proof.
  unfold searched. destruct (Query.search q) as [s|]; [|done]. simpl.
  by destruct (String.eqb s "").
Qed.

Lemma getAllRequests_found (regex : Regex.engine) req db :
  let q := Req.query req in
  (∀ s, Query.search q = Some s → s ≠ "" → is_Some (regex s "i")) →
  let requests :=
    Collection.sort_createdAt_desc
      (List.filter (fun d => satisfies (regex_found regex) q d.2)
         (Collection.docs db)) in
  Controller.getAllRequests regex req db =
    (db, json 200 true None (many_requests (length requests) requests)).
Proof.
  simpl. intros Hparse. unfold Controller.getAllRequests.
  set (q := Req.query req) in *.
  assert (∀ st ty pr cond r,
    Filter.matches (Filter.mk None st ty pr cond) r =
      Filter.eq_cond st (Request.status r)
      && Filter.eq_cond ty (Request.requestType r)
      && Filter.eq_cond pr (Request.priority r)
      && Filter.or_cond cond r) as Hm by done.
  unfold Filter.find, Filter.empty.
  destruct (Js.truthy (Query.search q)) eqn:Hts.
  - apply truthy_is_Some in Hts as (s & Hs & Hne).
    destruct (Hparse s Hs Hne) as [matcher Hre]. rewrite Hs. simpl.
    rewrite Hre.
    destruct (Js.truthy (Query.status q)) eqn:H1,
      (Js.truthy (Query.requestType q)) eqn:H2,
      (Js.truthy (Query.priority q)) eqn:H3;
      simpl; (erewrite List.filter_ext; [reflexivity|]);
      intros d; rewrite Hm, (or_cond_searched regex q s matcher) by done;
      unfold satisfies; by rewrite <- !eq_cond_exact, H1, H2, H3.
  - destruct (Js.truthy (Query.status q)) eqn:H1,
      (Js.truthy (Query.requestType q)) eqn:H2,
      (Js.truthy (Query.priority q)) eqn:H3;
      simpl; (erewrite List.filter_ext; [reflexivity|]);
      intros d; rewrite Hm; unfold satisfies;
      rewrite (searched_unset regex q) by done;
      by rewrite <- !eq_cond_exact, H1, H2, H3.
Qed.

(** A search string the engine does not compile: the query fails, and the
    [catch] hands the error on. *)
Lemma getAllRequests_regex_error (regex : Regex.engine) req db s :
  Query.search (Req.query req) = Some s → s ≠ "" → regex s "i" = None →
  Controller.getAllRequests regex req db
    = (db, next (Mongoose.RegexError s)).
Proof.
  intros Hs Hne Hre. unfold Controller.getAllRequests.
  rewrite Hs. rewrite (proj2 (truthy_Some s) Hne).
  simpl. by rewrite Hre.
Qed.

Lemma NoDup_bool_filter {A} (f : A → bool) (l : list A) :
  NoDup l → NoDup (List.filter f l).
Proof.
  induction 1 as [|x l Hx Hnd IH]; simpl; [constructor|].
  destruct (f x); [|done]. constructor; [|done].
  rewrite list_elem_of_In, List.filter_In, <- list_elem_of_In. tauto.
Qed.

(** C8, as amended. The search string is handed to the database as a
    pattern, to be sought under the option [i] in the title or in the
    description; what a pattern matches is the engine's business, and the
    statement holds whatever the engine. When the engine compiles the
    search string, [getAllRequests] sends exactly the stored requests that
    satisfy every set option, each once, the newest first: [status],
    [requestType] and [priority] must equal the option, and the title or the
    description must match the pattern. An option that is left out or empty
    constrains nothing. When the engine does not compile the search string,
    nothing is listed: the error of the query is handed to [next]. The route
    lets every admin through to the handler. *)
Theorem getAllRequests_spec (regex : Regex.engine) req db :
  let q := Req.query req in
  ((∀ s, Query.search q = Some s → s ≠ "" → is_Some (regex s "i")) →
   ∃ requests,
     Controller.getAllRequests regex req db =
       (db, json 200 true None (many_requests (length requests) requests))
     ∧ NoDup requests
     ∧ (∀ id r, (id, r) ∈ requests ↔
          db !! id = Some r ∧ satisfies (regex_found regex) q r = true)
     ∧ StronglySorted Collection.newer_first requests)
  ∧ (∀ s, Query.search q = Some s → s ≠ "" → regex s "i" = None →
       Controller.getAllRequests regex req db
         = (db, next (Mongoose.RegexError s)))
  ∧ (User.role (Req.user req) = "admin" →
       Routes.get_requests regex req db
         = Controller.getAllRequests regex req db).
Proof.
  simpl. split; [|split].
  - intros Hparse. rewrite (getAllRequests_found _ _ _ Hparse).
    eexists. split; [reflexivity|]. unfold Collection.sort_createdAt_desc.
    split; [|split].
    + rewrite merge_sort_Permutation. apply NoDup_bool_filter.
      apply NoDup_map_to_list.
    + intros id r. rewrite merge_sort_Permutation, list_elem_of_In.
      rewrite List.filter_In, <- list_elem_of_In. unfold Collection.docs.
      by rewrite elem_of_map_to_list.
    + apply StronglySorted_merge_sort; apply _.
  - intros s Hs Hne Hre. by apply getAllRequests_regex_error.
  - intros Ha. unfold Routes.get_requests, Routes.admin_only.
    by rewrite (admin_passes _ Ha).
Qed.

Lemma getAllRequests_spec_witness :
  (∃ requests,
     Controller.getAllRequests Regex.sample
       (Req.mk "" Sample.root Sample.no_body
          (Query.mk (Some "completed") None None (Some "S.RIPT")))
       Sample.db5
     = (Sample.db5,
        json 200 true None (many_requests (length requests) requests))
     ∧ requests.*1 = [Ids.r5; Ids.r4])
  ∧ Controller.getAllRequests Regex.sample
      (Req.mk "" Sample.root Sample.no_body
         (Query.mk (Some "completed") None None (Some "receipt")))
      Sample.db5
    = (Sample.db5, json 200 true None (many_requests 0 []))
  ∧ Controller.getAllRequests Regex.sample
      (Req.mk "" Sample.root Sample.no_body
         (Query.mk (Some "completed") None None (Some "(")))
      Sample.db5
    = (Sample.db5, next (Mongoose.RegexError "(")).
Proof.
  split; [|split].
  - destruct (getAllRequests_spec Regex.sample
                (Req.mk "" Sample.root Sample.no_body
                   (Query.mk (Some "completed") None None (Some "S.RIPT")))
                Sample.db5) as [Hlist _].
    destruct Hlist as (requests & H & _).
    { intros s [= <-] _. eexists. reflexivity. }
    exists requests. split; [exact H|].
    apply (f_equal (fun p => match p.2 with
                             | json _ _ _ (many_requests _ l) => l.*1
                             | _ => []
                             end)) in H.
    etrans; [symmetry; exact H|]. vm_compute. reflexivity.
  - destruct (getAllRequests_spec Regex.sample
                (Req.mk "" Sample.root Sample.no_body
                   (Query.mk (Some "completed") None None (Some "receipt")))
                Sample.db5) as [Hlist _].
    destruct Hlist as (requests & H & _).
    { intros s [= <-] _. eexists. reflexivity. }
    assert (Hnone : requests = []).
    { pose proof (f_equal (fun p => match p.2 with
                                    | json _ _ _ (many_requests _ l) => l
                                    | _ => []
                                    end) H) as Hl.
      etrans; [symmetry; exact Hl|]. vm_compute. reflexivity. }
    rewrite H, Hnone. reflexivity.
  - destruct (getAllRequests_spec Regex.sample
                (Req.mk "" Sample.root Sample.no_body
                   (Query.mk (Some "completed") None None (Some "(")))
                Sample.db5) as (_ & Herror & _).
    apply Herror; [reflexivity|discriminate|reflexivity].
Defined.

(** C8, as written, fails twice. The search string ["c.p"] occurs neither
    in the title "Transcript" nor in the description "Two copies", and yet
    the request is listed, because the [.] of the pattern stands for the
    [o] of "copies". And the search string ["("] lets the call list
    nothing at all, not even the empty list: it is no pattern, and the
    error of the query is handed to [next]. *)
Lemma search_is_a_pattern :
  (Controller.getAllRequests Regex.sample
     (Req.mk "" Sample.root Sample.no_body
        (Query.mk None None None (Some "c.p")))
     Sample.db1
   = (Sample.db1,
      json 200 true None (many_requests 1 [(Ids.r1, Sample.r1)]))
   ∧ satisfies ci_substring_of (Query.mk None None None (Some "c.p"))
       Sample.r1
     = false)
  ∧ Controller.getAllRequests Regex.sample
      (Req.mk "" Sample.root Sample.no_body
         (Query.mk None None None (Some "(")))
      Sample.db1
    = (Sample.db1, next (Mongoose.RegexError "(")).
Proof.
  split; [split; [|vm_compute; reflexivity]|].
  - rewrite getAllRequests_found.
    + reflexivity.
    + intros s [= <-] _. eexists. reflexivity.
  - by apply getAllRequests_regex_error.
Qed.

(** * Further properties of the controller *)

(** ** What a call stores *)

(** A property of single requests that the four stored documents keep
    holds of every request of every reachable collection. *)
Lemma reaches_invariant (P : Request.t → Prop) :
  (∀ now req, well_formed (created_doc now req) → P (created_doc now req)) →
  (∀ now req r, well_formed r → P r →
     well_formed (updated_doc now req r) → P (updated_doc now req r)) →
  (∀ now req r, well_formed r → P r →
     Js.truthy (Body.remark (Req.body req)) = true →
     well_formed (remarked_doc now req r) → P (remarked_doc now req r)) →
  (∀ now req r, well_formed r → P r →
     Js.truthy (Body.reason (Req.body req)) = true →
     well_formed (rejected_doc now req r) → P (rejected_doc now req r)) →
  ∀ past db id r, reaches past db → db !! id = Some r → P r.
Proof.
  intros Hc Hu Ha Hj past db id r Hreach. revert id r.
  induction Hreach as [|past db c Hreach IH]; intros id r' Hr'.
  - by rewrite lookup_empty in Hr'.
  - apply step_lookup in Hr' as [Hr' | (_ & _ & Hwf & Hm)]; [by eapply IH|].
    destruct c as [oid now req | now req | now req | now req].
    + destruct Hm as [_ ->]. by apply Hc.
    + destruct Hm as (r & Hr & ->).
      apply Hu; eauto using reaches_well_formed.
    + destruct Hm as (r & Hr & Ht & ->).
      apply Ha; eauto using reaches_well_formed.
    + destruct Hm as (r & Hr & Ht & ->).
      apply Hj; eauto using reaches_well_formed.
Qed.

(** ** A user's own requests *)

Lemma getMyRequests_found req db :
  let requests :=
    Collection.sort_createdAt_desc
      (Filter.find
         (Filter.mk (Some (User.id (Req.user req))) None None None None) db) in
  Controller.getMyRequests req db =
    (db, json 200 true None (many_requests (length requests) requests))
  ∧ ∀ id r, (id, r) ∈ requests ↔
      db !! id = Some r ∧ Request.userId r = User.id (Req.user req).
Proof.
  simpl. split; [done|]. intros id r.
  unfold Collection.sort_createdAt_desc, Filter.find.
  rewrite merge_sort_Permutation, list_elem_of_In.
  rewrite List.filter_In, <- list_elem_of_In. unfold Collection.docs.
  rewrite elem_of_map_to_list. unfold Filter.matches. simpl.
  rewrite !andb_true_r, bool_decide_eq_true.
  split; intros [? ?]; split; congruence.
Qed.

(** X1. [getMyRequests] never fails and never writes: it sends exactly the
    stored requests whose owner is the caller, each once, the newest first,
    together with their number. *)
Theorem getMyRequests_spec req db :
  ∃ requests,
    Controller.getMyRequests req db =
      (db, json 200 true None (many_requests (length requests) requests))
    ∧ NoDup requests
    ∧ (∀ id r, (id, r) ∈ requests ↔
         db !! id = Some r ∧ Request.userId r = User.id (Req.user req))
    ∧ StronglySorted Collection.newer_first requests.
Proof.
  unfold Controller.getMyRequests. eexists. split; [reflexivity|].
  unfold Collection.sort_createdAt_desc, Filter.find.
  split; [|split].
  - rewrite merge_sort_Permutation. apply NoDup_bool_filter.
    apply NoDup_map_to_list.
  - intros id r. rewrite merge_sort_Permutation, list_elem_of_In.
    rewrite List.filter_In, <- list_elem_of_In. unfold Collection.docs.
    rewrite elem_of_map_to_list. unfold Filter.matches. simpl.
    rewrite !andb_true_r, bool_decide_eq_true.
    split; intros [? ?]; split; congruence.
  - apply StronglySorted_merge_sort; apply _.
Qed.

(** X2. Whatever [getMyRequests] lists for a caller, the same caller can
    read with [getRequestById] under the id listed, and gets the request
    listed. *)
Theorem listed_request_readable req db count requests id r body query :
  Controller.getMyRequests req db =
    (db, json 200 true None (many_requests count requests)) →
  (id, r) ∈ requests →
  Controller.getRequestById (Req.mk id (Req.user req) body query) db =
    (db, json 200 true None (one_request id r)).
Proof.
  intros Hlist Hin.
  destruct (getMyRequests_found req db) as (Hsent & Hmem).
  rewrite Hsent in Hlist. injection Hlist as _ <-.
  apply Hmem in Hin as [Hr Howner].
  unfold Controller.getRequestById. simpl. rewrite (findById_Some _ _ _ Hr).
  by rewrite (bool_decide_false (Request.userId r ≠ _)) by (by intros []).
Qed.

Lemma listed_request_readable_witness :
  Controller.getRequestById
    (Req.mk Ids.r1 Sample.alice Sample.no_body Sample.no_query) Sample.db1
  = (Sample.db1, json 200 true None (one_request Ids.r1 Sample.r1)).
Proof.
  apply (listed_request_readable (Sample.on "" Sample.alice Sample.no_body)
           Sample.db1 1 [(Ids.r1, Sample.r1)]).
  - vm_compute. reflexivity.
  - by left.
Defined.

(** ** Listing and statistics together *)

Lemma length_sort_createdAt_desc l :
  length (Collection.sort_createdAt_desc l) = length l.
Proof.
  unfold Collection.sort_createdAt_desc. by rewrite merge_sort_Permutation.
Qed.

Lemma getRequestStats_found req db :
  map_Forall (fun _ r => is_Some (Request.status r)) db →
  ∃ stats,
    Controller.getRequestStats req db
      = (db, json 200 true None (the_stats stats))
    ∧ Stats.total stats = length (Collection.docs db)
    ∧ ∀ s, Stats.byStatus stats !! s =
        match count_status s db with
        | O => None
        | S n => Some (S n)
        end.
Proof.
  intros Hst. unfold Controller.getRequestStats. eexists. split; [done|].
  split; [done|]. intros s. simpl.
  rewrite fold_insert_lookup.
  - rewrite group_by_status_lookup, lookup_empty.
    unfold count_status, Collection.docs.
    by destruct (occurrences (Some s) (map_to_list db)).
  - by apply fold_bump_NoDup, NoDup_nil.
  - apply group_by_status_no_None. apply Forall_forall.
    intros [id r] Hin%elem_of_map_to_list. by apply (Hst id r).
Qed.

Lemma satisfies_by_status (regex : Regex.engine) s r :
  s ≠ "" →
  satisfies (regex_found regex) (by_status s) r
    = bool_decide (Request.status r = Some s).
Proof.
  intros Hs. unfold satisfies, exact, searched, by_status. simpl.
  destruct (String.eqb_spec s ""); [done|]. simpl. by rewrite !andb_true_r.
Qed.

(** X3. For a non-empty status [s], the number of requests that
    [getAllRequests] lists under the one option [status = s] is the count
    that [getRequestStats] shows for [s] on the same collection, 0 standing
    for no entry. *)
Theorem listing_count_matches_stats (regex : Regex.engine) req req' db s :
  s ≠ "" →
  Req.query req = by_status s →
  map_Forall (fun _ r => is_Some (Request.status r)) db →
  ∃ requests stats,
    Controller.getAllRequests regex req db =
      (db, json 200 true None (many_requests (length requests) requests))
    ∧ Controller.getRequestStats req' db
        = (db, json 200 true None (the_stats stats))
    ∧ length requests = shown stats s.
Proof.
  intros Hs Hq Hst.
  destruct (getRequestStats_found req' db Hst) as (stats & Hstats & _ & Hby).
  eexists _, stats. split; [|split; [exact Hstats|]].
  - apply getAllRequests_found. rewrite Hq. by intros ? [=].
  - rewrite length_sort_createdAt_desc, Hq. unfold shown. rewrite Hby.
    unfold count_status, occurrences.
    rewrite (List.filter_ext _
               (fun d => bool_decide (Request.status d.2 = Some s)))
      by (intros d; by apply satisfies_by_status).
    by destruct (length _).
Qed.

Lemma listing_count_matches_stats_witness :
  ∃ requests stats,
    Controller.getAllRequests Regex.sample
      (Req.mk "" Sample.root Sample.no_body (by_status "completed"))
      Sample.db5
    = (Sample.db5,
       json 200 true None (many_requests (length requests) requests))
    ∧ Controller.getRequestStats (Sample.on "" Sample.root Sample.no_body)
        Sample.db5
      = (Sample.db5, json 200 true None (the_stats stats))
    ∧ length requests = shown stats "completed".
Proof.
  apply (listing_count_matches_stats Regex.sample
           (Req.mk "" Sample.root Sample.no_body (by_status "completed"))
           (Sample.on "" Sample.root Sample.no_body) Sample.db5 "completed").
  - discriminate.
  - reflexivity.
  - by_compute.
Defined.

(** X4. With every option left out or empty, [getAllRequests] lists every
    stored request, and the number it sends is the total that
    [getRequestStats] sends. *)
Theorem unfiltered_listing_is_everything (regex : Regex.engine) req req' db :
  Js.truthy (Query.status (Req.query req)) = false →
  Js.truthy (Query.requestType (Req.query req)) = false →
  Js.truthy (Query.priority (Req.query req)) = false →
  Js.truthy (Query.search (Req.query req)) = false →
  ∃ requests stats,
    Controller.getAllRequests regex req db =
      (db, json 200 true None (many_requests (length requests) requests))
    ∧ (∀ id r, (id, r) ∈ requests ↔ db !! id = Some r)
    ∧ Controller.getRequestStats req' db
        = (db, json 200 true None (the_stats stats))
    ∧ length requests = Stats.total stats.
Proof.
  intros H1 H2 H3 H4.
  assert (Hall : ∀ r,
            satisfies (regex_found regex) (Req.query req) r = true).
  { intros r. unfold satisfies, exact, searched. rewrite H1, H2, H3. simpl.
    destruct (Query.search (Req.query req)) as [s|]; [|done].
    simpl in H4. by destruct (String.eqb s ""). }
  assert (Hfilter : List.filter
            (fun d => satisfies (regex_found regex) (Req.query req) d.2)
            (Collection.docs db) = Collection.docs db).
  { induction (Collection.docs db) as [|d l IH]; [done|]. simpl.
    by rewrite Hall, IH. }
  eexists _, _. split; [|split; [|split; [reflexivity|]]].
  - apply getAllRequests_found. intros s Hs Hne.
    rewrite Hs in H4. apply truthy_Some in Hne. congruence.
  - intros id r. unfold Collection.sort_createdAt_desc.
    rewrite merge_sort_Permutation, Hfilter. apply elem_of_map_to_list.
  - by rewrite length_sort_createdAt_desc, Hfilter.
Qed.

Lemma unfiltered_listing_is_everything_witness :
  ∃ requests stats,
    Controller.getAllRequests Regex.sample
      (Req.mk "" Sample.root Sample.no_body
         (Query.mk (Some "") None None None))
      Sample.db5
    = (Sample.db5,
       json 200 true None (many_requests (length requests) requests))
    ∧ (∀ id r, (id, r) ∈ requests ↔ Sample.db5 !! id = Some r)
    ∧ Controller.getRequestStats (Sample.on "" Sample.root Sample.no_body)
        Sample.db5
      = (Sample.db5, json 200 true None (the_stats stats))
    ∧ length requests = Stats.total stats.
Proof.
  by apply (unfiltered_listing_is_everything Regex.sample
              (Req.mk "" Sample.root Sample.no_body
                 (Query.mk (Some "") None None None))
              (Sample.on "" Sample.root Sample.no_body) Sample.db5).
Defined.

(** ** The counts of the statistics *)

Lemma sum_list_with_plus {A} (f g : A → nat) (l : list A) :
  sum_list_with (fun x => (f x + g x)%nat) l
    = (sum_list_with f l + sum_list_with g l)%nat.
Proof. induction l as [|x l IH]; simpl; [done|]. rewrite IH. lia. Qed.

Lemma sum_list_with_eq {A} (f g : A → nat) (l : list A) :
  (∀ x, f x = g x) → sum_list_with f l = sum_list_with g l.
Proof. intros H. induction l as [|x l IH]; simpl; [done|]. by rewrite H, IH. Qed.

Lemma sum_indicator (E : list string) (s0 : string) :
  NoDup E → s0 ∈ E →
  sum_list_with
    (fun s => if bool_decide (Some s0 = Some s) then 1%nat else 0%nat) E
    = 1%nat.
Proof.
  induction E as [|s E IH]; intros Hnd Hin; [by apply elem_of_nil in Hin|].
  apply NoDup_cons in Hnd as [Hnotin Hnd]. simpl.
  apply elem_of_cons in Hin as [->|Hin].
  - rewrite bool_decide_true by done.
    replace (sum_list_with _ E) with 0%nat; [done|].
    clear IH Hnd. induction E as [|s' E IH]; [done|]. simpl.
    apply not_elem_of_cons in Hnotin as [Hne Hnotin].
    rewrite bool_decide_false by congruence. by apply IH.
  - rewrite bool_decide_false by (intros [= ->]; done). by rewrite IH.
Qed.

Lemma occurrences_cons k d l :
  occurrences k (d :: l) =
    ((if bool_decide (Request.status d.2 = k) then 1 else 0)
     + occurrences k l)%nat.
Proof. unfold occurrences. simpl. by destruct (bool_decide _). Qed.

Lemma sum_occurrences (E : list string) (l : list (ObjectId * Request.t)) :
  NoDup E →
  Forall (fun d => ∃ s, Request.status d.2 = Some s ∧ s ∈ E) l →
  sum_list_with (fun s => occurrences (Some s) l) E = length l.
Proof.
  intros Hnd. induction 1 as [|d l (s0 & Hs0 & Hin) _ IH].
  - induction E as [|s E IHE]; [done|]. simpl. apply IHE.
    by apply NoDup_cons in Hnd as [_ ?].
  - rewrite (sum_list_with_eq _ _ _ (fun s => occurrences_cons (Some s) d l)).
    rewrite sum_list_with_plus, IH, Hs0, sum_indicator by done. done.
Qed.

Lemma occurrences_positive k l :
  (0 < occurrences k l)%nat → ∃ d, d ∈ l ∧ Request.status d.2 = k.
Proof.
  induction l as [|d l IH]; [unfold occurrences; simpl; lia|].
  rewrite occurrences_cons. case_bool_decide as Hd; simpl.
  - intros _. exists d. split; [by left|done].
  - intros (d' & Hin & Hk)%IH. exists d'. split; [by right|done].
Qed.

(** X5. On a collection of well-formed requests, [byStatus] has entries
    only for statuses of the schema's enumeration, each with a positive
    count, and the counts of the eight statuses add up to [total]. *)
Theorem stats_add_up req db :
  consistent db →
  ∃ stats,
    Controller.getRequestStats req db
      = (db, json 200 true None (the_stats stats))
    ∧ (∀ s n, Stats.byStatus stats !! s = Some n →
         s ∈ Request.status_enum ∧ (0 < n)%nat)
    ∧ sum_list_with (shown stats) Request.status_enum = Stats.total stats.
Proof.
  intros Hdb.
  assert (Hknown : Forall
            (fun d => ∃ s, Request.status d.2 = Some s
                        ∧ s ∈ Request.status_enum) (Collection.docs db)).
  { apply Forall_forall. intros [id r] Hin%elem_of_map_to_list.
    destruct (Hdb id r Hin) as [Hv [s Hs]]. exists s. split; [done|].
    apply validate_nil in Hv as (_ & _ & _ & _ & He & _).
    rewrite Hs in He. by apply enum_Some. }
  destruct (getRequestStats_found req db) as (stats & Hstats & Htotal & Hby).
  { intros id r Hr. by destruct (Hdb id r Hr). }
  exists stats. split; [exact Hstats|]. split.
  - intros s n Hn. rewrite Hby in Hn.
    destruct (count_status s db) as [|m] eqn:Hm; [done|]. injection Hn as <-.
    split; [|lia].
    destruct (occurrences_positive (Some s) (Collection.docs db))
      as (d & Hin & Hd); [unfold count_status in Hm; lia|].
    rewrite Forall_forall in Hknown.
    destruct (Hknown d Hin) as (s' & Hs' & Hen). congruence.
  - rewrite Htotal, <- (sum_occurrences Request.status_enum) by
      (done || by_compute).
    apply sum_list_with_eq. intros s. unfold shown. rewrite Hby.
    unfold count_status. by destruct (occurrences _ _).
Qed.

Lemma sample_db5_consistent : consistent Sample.db5.
Proof. by_compute. Qed.

Lemma stats_add_up_witness :
  ∃ stats,
    Controller.getRequestStats (Sample.on "" Sample.root Sample.no_body)
      Sample.db5
      = (Sample.db5, json 200 true None (the_stats stats))
    ∧ (∀ s n, Stats.byStatus stats !! s = Some n →
         s ∈ Request.status_enum ∧ (0 < n)%nat)
    ∧ sum_list_with (shown stats) Request.status_enum = Stats.total stats.
Proof.
  exact (stats_add_up (Sample.on "" Sample.root Sample.no_body) Sample.db5
           sample_db5_consistent).
Defined.

(** ** What [createRequest] turns down *)

Lemma elem_of_check x path ok :
  x ∈ Request.check path ok ↔ x = path ∧ ok = false.
Proof.
  destruct ok; simpl.
  - rewrite elem_of_nil. split; [done|]. by intros [_ ?].
  - rewrite list_elem_of_singleton. split; [done|]. by intros [? _].
Qed.

Lemma required_enum_type (v : option string) :
  Request.required v && Request.enum Request.requestType_enum v = true ↔
    ∃ ty, v = Some ty ∧ ty ∈ Request.requestType_enum.
Proof.
  rewrite andb_true_iff. split.
  - intros [(ty & -> & _)%truthy_is_Some Hen]. exists ty.
    split; [done|]. by apply enum_Some.
  - intros (ty & -> & Hin). split; [|by apply enum_Some].
    apply truthy_Some. intros ->. apply (bool_decide_pack _) in Hin.
    by vm_compute in Hin.
Qed.

Lemma enum_priority_or_else (v : option string) :
  Request.enum Request.priority_enum (Some (Js.or_else v "medium")) = true ↔
    (Js.truthy v = true → ∃ p, v = Some p ∧ p ∈ Request.priority_enum).
Proof.
  rewrite enum_Some. destruct v as [p|]; simpl.
  - destruct (String.eqb_spec p "") as [->|Hne]; simpl.
    + split; [done|]. intros _. by_compute.
    + split; [by eauto|]. intros H. by destruct (H eq_refl) as (? & [= <-] & ?).
  - split; [done|]. intros _. by_compute.
Qed.

(** X6. A body that [createRequest] does not accept (a request type that
    is missing or not in the enumeration, an empty or missing title or
    description, a priority that is given and not in the enumeration) is
    answered with a validation error and nothing is stored, whether or not
    the id is free; the error names exactly the paths at fault. *)
Theorem createRequest_rejects oid now req db :
  let b := Req.body req in
  ¬ acceptable b →
  ∃ paths,
    Controller.createRequest oid now req db
      = (db, next (Mongoose.ValidationError paths))
    ∧ paths ≠ []
    ∧ ("requestType" ∈ paths ↔
         ¬ ∃ ty, Body.requestType b = Some ty ∧ ty ∈ Request.requestType_enum)
    ∧ ("title" ∈ paths ↔ Js.truthy (Body.title b) = false)
    ∧ ("description" ∈ paths ↔ Js.truthy (Body.description b) = false)
    ∧ ("priority" ∈ paths ↔
         ¬ (Js.truthy (Body.priority b) = true →
            ∃ p, Body.priority b = Some p ∧ p ∈ Request.priority_enum)).
Proof.
  simpl. intros Hbad.
  set (doc := Model.new_document now
                (Model.mk_fields (User.id (Req.user req))
                   (Body.requestType (Req.body req))
                   (Body.title (Req.body req))
                   (Body.description (Req.body req))
                   (Body.correctionDetails (Req.body req))
                   (Body.uploadedDocuments (Req.body req))
                   (Some (Js.or_else (Body.priority (Req.body req))
                            "medium")))).
  assert (Hne : Request.validate doc ≠ []).
  { intros Hv. apply Hbad.
    apply validate_nil in Hv as (H1 & H2 & H3 & H4 & _ & _ & H6).
    simpl in *. split; [split; [|by split]|].
    - apply required_enum_type. by rewrite H1, H2.
    - by apply enum_priority_or_else. }
  exists (Request.validate doc). split; [|split; [done|]].
  { unfold Controller.createRequest, Model.create.
    fold doc. by rewrite (save_invalid _ _ _ _ _ Hne). }
  unfold Request.validate. simpl.
  rewrite !elem_of_app, !elem_of_check.
  rewrite <- required_enum_type, <- enum_priority_or_else.
  unfold Request.required. simpl.
  destruct (Js.truthy (Body.requestType (Req.body req)) && _),
    (Js.truthy (Body.title (Req.body req))),
    (Js.truthy (Body.description (Req.body req))),
    (bool_decide _).
  all: intuition (discriminate || congruence).
Qed.

Lemma createRequest_rejects_witness :
  ∃ paths,
    Controller.createRequest Ids.unknown 10
      (Sample.on "" Sample.alice Trail.untitled) Sample.db1
      = (Sample.db1, next (Mongoose.ValidationError paths))
    ∧ "title" ∈ paths
    ∧ "requestType" ∉ paths.
Proof.
  destruct (createRequest_rejects Ids.unknown 10
              (Sample.on "" Sample.alice Trail.untitled) Sample.db1)
    as (paths & H1 & _ & H2 & H3 & _).
  { intros [(_ & Ht & _) _]. discriminate Ht. }
  exists paths. split; [exact H1|]. split; [by apply H3|].
  intros Hin. apply H2 in Hin. apply Hin.
  exists "transcript". split; [done|by_compute].
Defined.

(** ** Calls that fail, and requests a call is not about *)

(** X7. A call that is answered with a failure has changed nothing: the
    collection after it is the collection before it. This holds for
    [createRequest], [updateRequestStatus], [addRemark] and
    [rejectRequest], and so for every sequence of failing calls. *)
Theorem failed_calls_change_nothing calls db :
  Forall (fun e => succeeded e.2 = false) (run calls db).2 →
  (run calls db).1 = db.
Proof.
  revert db. induction calls as [|c calls IH]; intros db; [done|].
  rewrite run_cons. simpl. intros [Hc Hrest]%Forall_cons. simpl in Hc.
  destruct (step_effect c db) as [[Hdb _] | (r' & _ & _ & Hs & _)];
    [|congruence].
  rewrite Hdb in Hrest |- *. by apply IH.
Qed.

Lemma failed_calls_change_nothing_witness :
  (run Trail.failing Sample.db1).1 = Sample.db1.
Proof.
  apply failed_calls_change_nothing. by_compute.
Defined.



(** ** What a call makes of a stored request *)

Lemma step_change c db id r r' :
  db !! id = Some r →
  (step c db).1 !! id = Some r' →
  (r' = r ∧ (target c = id → succeeded (step c db).2 = false))
  ∨ (target c = id ∧ succeeded (step c db).2 = true
     ∧ match c with
       | Create _ _ _ => False
       | UpdateStatus now req => r' = updated_doc now req r
       | AddRemark now req => r' = remarked_doc now req r
       | Reject now req => r' = rejected_doc now req r
       end).
Proof.
  intros Hr Hr'.
  destruct (step_effect c db) as [[Hdb Hs] | (r1 & Hdb & _ & Hs & _ & Hm)];
    rewrite Hdb in Hr'.
  { left. split; [congruence|done]. }
  destruct (decide (target c = id)) as [Hid|Hne].
  - right. rewrite Hid, lookup_insert_eq in Hr'. injection Hr' as <-.
    split; [done|]. split; [done|].
    destruct c as [oid now req | now req | now req | now req];
      simpl in Hid; subst id.
    + destruct Hm as [? _]. congruence.
    + destruct Hm as (r0 & ? & ->). congruence.
    + destruct Hm as (r0 & ? & _ & ->). congruence.
    + destruct Hm as (r0 & ? & _ & ->). congruence.
  - left. rewrite lookup_insert_ne in Hr' by done. split; [congruence|done].
Qed.

Lemma same_submission_refl r : same_submission r r.
Proof. by repeat split. Qed.

Lemma same_submission_trans r1 r2 r3 :
  same_submission r1 r2 → same_submission r2 r3 → same_submission r1 r3.
Proof. unfold same_submission. intuition congruence. Qed.

Lemma step_same_submission c db id r r' :
  db !! id = Some r → (step c db).1 !! id = Some r' → same_submission r r'.
Proof.
  intros Hr Hr'.
  destruct (step_change c db id r r' Hr Hr') as [[-> _] | (_ & _ & Hm)];
    [apply same_submission_refl|].
  destruct c as [oid now req | now req | now req | now req];
    [done| | |]; subst r'; unfold same_submission, updated_doc; simpl;
    try case_bool_decide; by repeat split.
Qed.

(** X9. What was submitted stays as submitted: across any sequence of
    calls a stored request keeps its owner, request type, title,
    description, correction details, uploaded documents, priority,
    creation date and expected completion date. *)
Theorem submission_immutable calls db id r :
  db !! id = Some r →
  ∃ r', (run calls db).1 !! id = Some r' ∧ same_submission r r'.
Proof.
  revert db r. induction calls as [|c calls IH]; intros db r Hr.
  - exists r. split; [done|apply same_submission_refl].
  - rewrite run_cons. simpl.
    destruct (step_keeps c db id) as [r1 Hr1]; [by eexists|].
    destruct (IH _ _ Hr1) as (r' & Hr' & Hsame). exists r'.
    split; [done|]. eapply same_submission_trans; [|done].
    by eapply step_same_submission.
Qed.

Lemma submission_immutable_witness :
  ∃ r', (run Sample.calls Sample.db1).1 !! Ids.r1 = Some r'
    ∧ same_submission Sample.r1 r'.
Proof.
  exact (submission_immutable Sample.calls Sample.db1 Ids.r1 Sample.r1
           sample_db1_r1).
Defined.

(** X10. No call removes a request, and only [createRequest] adds one:
    after any sequence of calls the collection holds as many requests as
    before plus one for each call to [createRequest] that succeeded. *)
Theorem collection_grows_by_creation calls db :
  size (run calls db).1 =
    (size db
     + length (List.filter (fun e => is_create e.1 && succeeded e.2)
                 (run calls db).2))%nat.
Proof.
  revert db. induction calls as [|c calls IH]; intros db; [simpl; lia|].
  rewrite run_cons. simpl. rewrite IH.
  destruct (step_effect c db) as [[Hdb Hs] | (r' & Hdb & _ & Hs & _ & Hm)];
    rewrite Hdb, Hs.
  - rewrite andb_false_r. lia.
  - rewrite andb_true_r.
    destruct c as [oid now req | now req | now req | now req]; simpl.
    + destruct Hm as [Hfresh _]. rewrite map_size_insert_None by done. lia.
    + destruct Hm as (r & Hr & _). rewrite map_size_insert_Some by done. lia.
    + destruct Hm as (r & Hr & _). rewrite map_size_insert_Some by done. lia.
    + destruct Hm as (r & Hr & _). rewrite map_size_insert_Some by done. lia.
Qed.

(** X11. What a successful call sends is what it has stored: the response
    carries the target id and a request, that request is then stored under
    that id, and [getRequestById] by an admin or by the owner of the
    request sends it again. *)
Theorem written_request_readable c db :
  succeeded (step c db).2 = true →
  ∃ code message r',
    (step c db).2 = json code true message (one_request (target c) r')
    ∧ (step c db).1 !! target c = Some r'
    ∧ ∀ reader, Req.params_id reader = target c →
        User.role (Req.user reader) = "admin"
        ∨ User.id (Req.user reader) = Request.userId r' →
        Controller.getRequestById reader (step c db).1 =
          ((step c db).1, json 200 true None (one_request (target c) r')).
Proof.
  intros Hs.
  destruct (step_effect c db)
    as [[_ Hf] | (r' & Hdb & (code & message & Hresp) & _)]; [congruence|].
  exists code, message, r'. split; [done|]. rewrite Hdb.
  split; [by rewrite lookup_insert_eq|]. intros reader Hid Hwho.
  unfold Controller.getRequestById.
  rewrite Hid, (findById_Some _ _ r') by apply lookup_insert_eq.
  destruct Hwho as [Ha|Ho].
  - rewrite (bool_decide_false (User.role _ ≠ _)) by (by intros []).
    by rewrite andb_false_r.
  - by rewrite (bool_decide_false (Request.userId _ ≠ _)) by (by intros []).
Qed.

Lemma written_request_readable_witness :
  ∃ code message r',
    (step Sample.complete Sample.db1).2
      = json code true message (one_request Ids.r1 r')
    ∧ Sample.db2 !! Ids.r1 = Some r'
    ∧ Controller.getRequestById
        (Sample.on Ids.r1 Sample.alice Sample.no_body) Sample.db2
      = (Sample.db2, json 200 true None (one_request Ids.r1 r')).
Proof.
  destruct (written_request_readable Sample.complete Sample.db1)
    as (code & message & r' & H1 & H2 & H3); [by vm_compute|].
  exists code, message, r'. split; [exact H1|]. split; [exact H2|].
  apply (H3 (Sample.on Ids.r1 Sample.alice Sample.no_body) eq_refl).
  right. vm_compute in H2. by injection H2 as <-.
Defined.

(** ** The rejection reason *)




Lemma sample_reaches_db4 : reaches [Trail.db3; Sample.db2; Sample.db1; ∅] Trail.db4.
Proof.
  exact (reaches_step _ _ Trail.reject
           (reaches_step _ _ Trail.remark sample_reaches_db2)).
Qed.


(** ** Invariants of the stored requests *)

(** X13. In every reachable collection the status of a request is the
    status of the last event of its timeline. *)
Theorem status_is_last_event past db id r :
  reaches past db → db !! id = Some r →
  ∃ e, last (Request.timeline r) = Some e
    ∧ TimelineEvent.status e = Request.status r.
Proof.
  apply (reaches_invariant
    (fun r => ∃ e, last (Request.timeline r) = Some e
                ∧ TimelineEvent.status e = Request.status r)).
  - intros now req _. by eexists.
  - intros now req r0 _ _ _. unfold updated_doc.
    case_bool_decide; simpl; rewrite last_snoc; by eexists.
  - intros now req r0 _ _ _ _. simpl. rewrite last_snoc. by eexists.
  - intros now req r0 _ _ _ _. simpl. rewrite last_snoc. by eexists.
Qed.

Lemma status_is_last_event_witness :
  ∃ r4 e, Trail.db4 !! Ids.r1 = Some r4
    ∧ last (Request.timeline r4) = Some e
    ∧ TimelineEvent.status e = Request.status r4.
Proof.
  destruct (Trail.db4 !! Ids.r1) as [r4|] eqn:Hr4; [|by vm_compute in Hr4].
  destruct (status_is_last_event _ _ _ _ sample_reaches_db4 Hr4)
    as (e & He & Hs).
  exists r4, e. split; [reflexivity|]. split; [exact He|exact Hs].
Defined.

Lemma reaches_priority past db id r :
  reaches past db → db !! id = Some r → is_Some (Request.priority r).
Proof.
  apply (reaches_invariant (fun r => is_Some (Request.priority r))).
  - intros now req _. by eexists.
  - intros now req r0 _ H _. unfold updated_doc. by case_bool_decide.
  - by intros now req r0 _ H _ _.
  - by intros now req r0 _ H _ _.
Qed.

(** X14. Every request of every reachable collection satisfies the schema
    in full: its request type, status and priority are present and in
    their enumerations, its title and description are present and are not
    empty, and every event of its timeline has a non-empty status and
    message. *)
Theorem stored_requests_valid past db id r :
  reaches past db → db !! id = Some r →
  (∃ ty, Request.requestType r = Some ty ∧ ty ∈ Request.requestType_enum)
  ∧ (∃ st, Request.status r = Some st ∧ st ∈ Request.status_enum)
  ∧ (∃ pr, Request.priority r = Some pr ∧ pr ∈ Request.priority_enum)
  ∧ (∃ t, Request.title r = Some t ∧ t ≠ "")
  ∧ (∃ d, Request.description r = Some d ∧ d ≠ "")
  ∧ Forall (fun e =>
       (∃ s, TimelineEvent.status e = Some s ∧ s ≠ "")
       ∧ (∃ m, TimelineEvent.message e = Some m ∧ m ≠ ""))
      (Request.timeline r).
Proof.
  intros Hreach Hr.
  destruct (reaches_well_formed _ _ _ _ Hreach Hr) as [Hv [st Hst]].
  destruct (reaches_priority _ _ _ _ Hreach Hr) as [pr Hpr].
  apply validate_nil in Hv as (H1 & H2 & H3 & H4 & H5 & H6 & H7).
  split; [apply required_enum_type; by rewrite H1, H2|].
  split; [exists st; split; [done|]; apply enum_Some; by rewrite <- Hst|].
  split; [exists pr; split; [done|]; apply enum_Some; by rewrite <- Hpr|].
  split; [by apply truthy_is_Some|]. split; [by apply truthy_is_Some|].
  apply Forall_forall. intros e Hin.
  rewrite forallb_forall in H6. apply list_elem_of_In, H6 in Hin.
  apply andb_true_iff in Hin as [Hs Hm].
  split; by apply truthy_is_Some.
Qed.

Lemma stored_requests_valid_witness :
  ∃ r4, Trail.db4 !! Ids.r1 = Some r4
    ∧ (∃ st, Request.status r4 = Some st ∧ st ∈ Request.status_enum)
    ∧ (∃ pr, Request.priority r4 = Some pr ∧ pr ∈ Request.priority_enum).
Proof.
  destruct (Trail.db4 !! Ids.r1) as [r4|] eqn:Hr4; [|by vm_compute in Hr4].
  destruct (stored_requests_valid _ _ _ _ sample_reaches_db4 Hr4)
    as (_ & H2 & H3 & _).
  exists r4. split; [reflexivity|]. split; [exact H2|exact H3].
Defined.

(** X15. In every reachable collection each event of each timeline records
    a status of the schema's enumeration, although the schema of a
    timeline event asks only for some status. *)
Theorem timeline_statuses_known past db id r :
  reaches past db → db !! id = Some r →
  Forall (fun e => ∃ s, TimelineEvent.status e = Some s
                     ∧ s ∈ Request.status_enum)
    (Request.timeline r).
Proof.
  apply (reaches_invariant
    (fun r => Forall (fun e => ∃ s, TimelineEvent.status e = Some s
                                 ∧ s ∈ Request.status_enum)
                (Request.timeline r))).
  - intros now req _. simpl. apply Forall_singleton.
    exists "submitted". split; [done|by_compute].
  - intros now req r0 _ IH [Hv [s Hs]].
    assert (Hen : s ∈ Request.status_enum).
    { apply validate_nil in Hv as (_ & _ & _ & _ & He & _).
      rewrite Hs in He. by apply enum_Some. }
    revert Hs. unfold updated_doc.
    case_bool_decide; simpl; intros Hs; apply Forall_app;
      (split; [done|]); apply Forall_singleton; by exists s.
  - intros now req r0 [Hv [s Hs]] IH _ _. simpl. apply Forall_app.
    split; [done|]. apply Forall_singleton. exists s. split; [done|].
    apply validate_nil in Hv as (_ & _ & _ & _ & He & _).
    rewrite Hs in He. by apply enum_Some.
  - intros now req r0 _ IH _ _. simpl. apply Forall_app.
    split; [done|]. apply Forall_singleton.
    exists "rejected". split; [done|by_compute].
Qed.

Lemma timeline_statuses_known_witness :
  ∃ r4, Trail.db4 !! Ids.r1 = Some r4
    ∧ Forall (fun e => ∃ s, TimelineEvent.status e = Some s
                         ∧ s ∈ Request.status_enum)
        (Request.timeline r4).
Proof.
  destruct (Trail.db4 !! Ids.r1) as [r4|] eqn:Hr4; [|by vm_compute in Hr4].
  exists r4. split; [done|].
  exact (timeline_statuses_known _ _ _ _ sample_reaches_db4 Hr4).
Defined.

Lemma mirrored_app a tl tl' : mirrored a tl → mirrored a (tl ++ tl').
Proof.
  intros (e & Hin & He). exists e. split; [apply elem_of_app; by left|done].
Qed.

(** X16. In every reachable collection each admin remark of a request is a
    non-empty text and is mirrored on the timeline of the request: some
    event has the message "Admin added a remark: <remark>" and names the
    admin of the remark, by id and by name. *)
Theorem remarks_mirrored past db id r :
  reaches past db → db !! id = Some r →
  Forall (fun a => Js.truthy (AdminRemark.remark a) = true
                   ∧ mirrored a (Request.timeline r))
    (Request.adminRemarks r).
Proof.
  apply (reaches_invariant
    (fun r => Forall (fun a => Js.truthy (AdminRemark.remark a) = true
                               ∧ mirrored a (Request.timeline r))
                (Request.adminRemarks r))).
  - intros now req _. simpl. constructor.
  - intros now req r0 _ IH _. unfold updated_doc.
    case_bool_decide; simpl; (eapply Forall_impl; [exact IH|]);
      intros a [Ht Hm]; (split; [done|by apply mirrored_app]).
  - intros now req r0 _ IH Ht _. simpl. apply Forall_app. split.
    + eapply Forall_impl; [exact IH|].
      intros a [Ha Hm]. split; [done|by apply mirrored_app].
    + apply Forall_singleton. split; [done|].
      exists (remark_event now req r0).
      split; [apply elem_of_app; right; by left|done].
  - intros now req r0 _ IH _ _. simpl.
    eapply Forall_impl; [exact IH|].
    intros a [Ha Hm]. split; [done|by apply mirrored_app].
Qed.

Lemma remarks_mirrored_witness :
  ∃ r4 a, Trail.db4 !! Ids.r1 = Some r4
    ∧ Request.adminRemarks r4 = [a]
    ∧ mirrored a (Request.timeline r4).
Proof.
  destruct (Trail.db4 !! Ids.r1) as [r4|] eqn:Hr4; [|by vm_compute in Hr4].
  pose proof (remarks_mirrored _ _ _ _ sample_reaches_db4 Hr4) as Hall.
  assert (∃ a, Request.adminRemarks r4 = [a]) as [a Ha].
  { vm_compute in Hr4. injection Hr4 as <-. by eexists. }
  exists r4, a. split; [done|]. split; [done|].
  rewrite Ha in Hall. by apply Forall_singleton in Hall as [_ ?].
Defined.
